(** * python-bale-bot: the typed object model and the error taxonomy

    A shallow embedding of [bale/_chat.py], [bale/_chatmember.py],
    [bale/_message.py], [bale/_error.py], [bale/attachments/_contact.py] and
    [bale/attachments/_video.py].

    Python is dynamically typed: every attribute of an entity can hold any
    value.  The embedding therefore works over one universe of Python values
    ([pyval]); entities are objects with a class, a lock flag, an identity
    [_id] and a store of attributes.  Code that can raise returns a [result];
    the statements of a method are sequenced with [x <- e ;; k]. *)

From Stdlib Require Import String Ascii ZArith List Bool Lia.
Import ListNotations.
Local Open Scope string_scope.
Local Open Scope Z_scope.

(** ** Exceptions and the error monad *)

Inductive exn : Type :=
| AttributeError
| KeyError
| TypeError.

Inductive result (A : Type) : Type :=
| Ok (a : A)
| Raise (e : exn).

Arguments Ok {A} a.
Arguments Raise {A} e.

Definition bind {A B : Type} (m : result A) (k : A -> result B) : result B :=
  match m with
  | Ok a => k a
  | Raise e => Raise e
  end.

Notation "x <- m ;; k" := (bind m (fun x => k))
  (at level 61, m at next level, right associativity).
Notation "' pat <- m ;; k" := (bind m (fun x => match x with pat => k end))
  (at level 61, pat pattern, m at next level, right associativity).

(** ** Python values *)

(** The classes of the object model.  Only [Chat], [ChatMember], [Message],
    [Contact] and [Video] have their constructor under [src/]. *)
Inductive class : Type :=
| CChat | CChatMember | CMessage | CContact | CVideo
| CUser | CChatPhoto | CPhotoSize | CDocument | CAudio | CVoice
| CLocation | CAnimation | CSuccessfulPayment | CSticker | CInvoice.

Definition class_eqb (a b : class) : bool :=
  match a, b with
  | CChat, CChat | CChatMember, CChatMember | CMessage, CMessage
  | CContact, CContact | CVideo, CVideo | CUser, CUser
  | CChatPhoto, CChatPhoto | CPhotoSize, CPhotoSize | CDocument, CDocument
  | CAudio, CAudio | CVoice, CVoice | CLocation, CLocation
  | CAnimation, CAnimation | CSuccessfulPayment, CSuccessfulPayment
  | CSticker, CSticker | CInvoice, CInvoice => true
  | _, _ => false
  end.

(** [PMissing] is [bale.utils.types.MissingValue]; [PNone] is [None].
    A dict is an association list in insertion order, looked up by its first
    entry for a key.  An object carries the attributes of [BaleObject] apart
    ([_locked], [_id]) and the attributes of its class in [slots]; the
    reference to the bot client is not modelled.
    Floating-point numbers are not modelled. *)
Unset Elimination Schemes.
Inductive pyval : Type :=
| PMissing
| PNone
| PBool (b : bool)
| PInt (z : Z)
| PStr (s : string)
| PDatetime (timestamp : Z)
| PList (l : list pyval)
| PTuple (l : list pyval)
| PDict (d : list (string * pyval))
| PObj (cls : class) (_locked : bool) (_id : pyval) (slots : list (string * pyval)).
Set Elimination Schemes.

Definition dict : Type := list (string * pyval).

(** Modelled from the spec: the missing-value sentinel lives in
    [bale/utils/types.py], which is not under [src/].  The spec makes it a value
    distinct from [None]; the accessors of [Message] test optional fields with
    [not] ([if not self.chat: return None]), so the sentinel is falsy like
    [None].  The other cases are Python's truth-value testing. *)
Definition truthy (v : pyval) : bool :=
  match v with
  | PMissing => false
  | PNone => false
  | PBool b => b
  | PInt z => negb (z =? 0)
  | PStr s => negb (String.eqb s "")
  | PDatetime _ => true
  | PList l => match l with [] => false | _ => true end
  | PTuple l => match l with [] => false | _ => true end
  | PDict d => match d with [] => false | _ => true end
  | PObj _ _ _ _ => true
  end.

(** [a or b] and [a and b]; the right operand is evaluated only when needed. *)
Definition py_or (a : pyval) (b : result pyval) : result pyval :=
  if truthy a then Ok a else b.

Definition py_and (a : pyval) (b : result pyval) : result pyval :=
  if truthy a then b else Ok a.

(** *** Dictionaries *)

Fixpoint dict_get (k : string) (d : dict) : option pyval :=
  match d with
  | [] => None
  | (k', v) :: r => if String.eqb k' k then Some v else dict_get k r
  end.

(** [d.get(k, default)] *)
Definition dict_get_default (d : dict) (k : string) (default : pyval) : pyval :=
  match dict_get k d with
  | Some v => v
  | None => default
  end.

(** [d[k] = v]: an existing key keeps its place, a new one goes last. *)
Fixpoint dict_set (k : string) (v : pyval) (d : dict) : dict :=
  match d with
  | [] => [(k, v)]
  | (k', v') :: r =>
      if String.eqb k' k then (k, v) :: r else (k', v') :: dict_set k v r
  end.

Fixpoint dict_remove (k : string) (d : dict) : dict :=
  match d with
  | [] => []
  | (k', v') :: r =>
      if String.eqb k' k then dict_remove k r else (k', v') :: dict_remove k r
  end.

Definition keys (d : dict) : list string := map fst d.

(** [dict_get] followed by [f], written so that a structural recursion can go
    through a lookup. *)
Definition get_with {A : Type} (f : pyval -> A) (k : string) : dict -> option A :=
  fix go (d : dict) : option A :=
    match d with
    | [] => None
    | (k', v) :: r => if String.eqb k' k then Some (f v) else go r
    end.

(** The dict methods on an arbitrary value: anything but a dict has no
    [get], [pop] or item assignment. *)
Definition py_get (data : pyval) (k : string) (default : pyval) : result pyval :=
  match data with
  | PDict d => Ok (dict_get_default d k default)
  | _ => Raise AttributeError
  end.

Definition py_setitem (data : pyval) (k : string) (v : pyval) : result pyval :=
  match data with
  | PDict d => Ok (PDict (dict_set k v d))
  | _ => Raise TypeError
  end.

(** [data.pop(k, default)]: the value and the dict without the key. *)
Definition py_pop_default (data : pyval) (k : string) (default : pyval)
  : result (pyval * pyval) :=
  match data with
  | PDict d => Ok (dict_get_default d k default, PDict (dict_remove k d))
  | _ => Raise AttributeError
  end.

(** [data.pop(k)]: [KeyError] when the key is absent. *)
Definition py_pop (data : pyval) (k : string) : result (pyval * pyval) :=
  match data with
  | PDict d =>
      match dict_get k d with
      | Some v => Ok (v, PDict (dict_remove k d))
      | None => Raise KeyError
      end
  | _ => Raise AttributeError
  end.

(** Iteration of a [for] clause: a list or tuple yields its elements, a dict
    its keys, a string its characters; nothing else is iterable. *)
Fixpoint chars (s : string) : list pyval :=
  match s with
  | EmptyString => []
  | String c r => PStr (String c EmptyString) :: chars r
  end.

Definition py_iter (v : pyval) : result (list pyval) :=
  match v with
  | PList l => Ok l
  | PTuple l => Ok l
  | PDict d => Ok (map (fun kv => PStr (fst kv)) d)
  | PStr s => Ok (chars s)
  | _ => Raise TypeError
  end.

(** [[f(x) for x in l]] *)
Fixpoint comprehension (f : pyval -> result pyval) (l : list pyval)
  : result (list pyval) :=
  match l with
  | [] => Ok []
  | x :: r => y <- f x ;; ys <- comprehension f r ;; Ok (y :: ys)
  end.

(** *** Equality *)

Definition forall2b {A B : Type} (f : A -> B -> bool) : list A -> list B -> bool :=
  fix go (x : list A) (y : list B) : bool :=
    match x, y with
    | [], [] => true
    | u :: x', v :: y' => f u v && go x' y'
    | _, _ => false
    end.

Definition entries_in {A : Type} (f : A -> pyval -> bool) (y : dict)
  : list (string * A) -> bool :=
  fix go (x : list (string * A)) : bool :=
    match x with
    | [] => true
    | (k, u) :: x' =>
        match dict_get k y with
        | Some v => f u v && go x'
        | None => false
        end
    end.

(** Python's [==].  [bool] is a subclass of [int]; lists and tuples compare
    element by element; dicts compare as mappings, whatever the order of their
    entries (the keys of a dict are distinct).
    Modelled from the spec: two objects compare by [BaleObject.__eq__], which
    is not under [src/]; the spec says [_id] is used for equality ("two Chat
    instances with the same id are equal"), so they are equal when they have
    the same class and equal [_id].  The [__eq__] of the sentinel is not under
    [src/] either; it is taken to be identity, and no statement below
    compares with the sentinel. *)
Fixpoint py_eq (a b : pyval) {struct a} : bool :=
  match a, b with
  | PMissing, PMissing => true
  | PNone, PNone => true
  | PBool x, PBool y => Bool.eqb x y
  | PBool x, PInt y => Z.b2z x =? y
  | PInt x, PBool y => x =? Z.b2z y
  | PInt x, PInt y => x =? y
  | PStr x, PStr y => String.eqb x y
  | PDatetime x, PDatetime y => x =? y
  | PList x, PList y => forall2b py_eq x y
  | PTuple x, PTuple y => forall2b py_eq x y
  | PDict x, PDict y =>
      Nat.eqb (List.length x) (List.length y) && entries_in py_eq y x
  | PObj c _ i _, PObj c' _ i' _ => class_eqb c c' && py_eq i i'
  | _, _ => false
  end.

(** [v in (e1, ..., en)] *)
Definition py_in (v : pyval) (l : list pyval) : bool :=
  existsb (fun e => py_eq v e) l.

(** No string occurs twice. *)
Fixpoint distinct (l : list string) : bool :=
  match l with
  | [] => true
  | k :: r => negb (existsb (String.eqb k) r) && distinct r
  end.

(** A value as [json.loads] gives it: no sentinel, no object, no tuple, and
    the keys of every dict distinct. *)
Fixpoint is_json (v : pyval) : bool :=
  match v with
  | PNone | PBool _ | PInt _ | PStr _ => true
  | PList l => forallb is_json l
  | PDict d => distinct (map fst d) && forallb (fun kv => is_json (snd kv)) d
  | _ => false
  end.

(** ** BaleObject *)

Module BaleObject.

(** Modelled from the spec: the module of [BaleObject] is not under [src/]
    (the entities import the class from the package).  The spec gives it an optional identity [_id], a lock ("once
    constructed, an instance cannot be mutated; any later attribute
    assignment fails"), [parse_data] ("produces null when raw is empty or
    absent") and [from_dict] ("returns null if data is empty; otherwise
    calls the subclass constructor with parsed fields"). *)
Definition __init__ (cls : class) : pyval := PObj cls false PNone [].

(** Modelled from the spec: a write on a locked instance raises, and is not
    ignored; before the lock it stores the value. *)
Definition __setattr__ (self : pyval) (key : string) (value : pyval)
  : result pyval :=
  match self with
  | PObj cls _locked _id slots =>
      if _locked then Raise AttributeError
      else if String.eqb key "_id" then Ok (PObj cls _locked value slots)
      else Ok (PObj cls _locked _id (dict_set key value slots))
  | _ => Raise AttributeError
  end.

Definition getattr (self : pyval) (key : string) : result pyval :=
  match self with
  | PObj cls _locked _id slots =>
      if String.eqb key "_id" then Ok _id
      else match dict_get key slots with
           | Some v => Ok v
           | None => Raise AttributeError
           end
  | _ => Raise AttributeError
  end.

(** Modelled from the spec: "after the constructor body completes, the
    instance transitions to immutable". *)
Definition _lock (self : pyval) : result pyval :=
  match self with
  | PObj cls _ _id slots => Ok (PObj cls true _id slots)
  | _ => Raise AttributeError
  end.

Definition is_locked (self : pyval) : bool :=
  match self with
  | PObj _ _locked _ _ => _locked
  | _ => false
  end.

(** Modelled from the spec: an empty or absent payload gives [None], any
    other payload is handed on. *)
Definition parse_data (data : pyval) : pyval :=
  if truthy data then data else PNone.

(** Modelled from the spec: the constructor of the class is called with the
    parsed fields as keyword arguments; [call] is that constructor. *)
Definition from_dict (call : dict -> result pyval) (data : pyval)
  : result pyval :=
  let data := parse_data data in
  if negb (truthy data) then Ok PNone
  else match data with
       | PDict kwargs => call kwargs
       | _ => Raise TypeError
       end.

(** Keyword binding of a constructor call: a parameter without default
    must be given; one with a default takes it when it is not given.
    Modelled from the spec: keys that name no parameter are left aside ("the
    model tolerates incomplete payloads"; the wire format has more fields
    than the constructors have parameters). *)
Definition required (kwargs : dict) (name : string) : result pyval :=
  match dict_get name kwargs with
  | Some v => Ok v
  | None => Raise TypeError
  end.

Definition optional (kwargs : dict) (name : string) (default : pyval) : pyval :=
  dict_get_default kwargs name default.

(** Modelled from the spec: "[_id] is used for equality/hashing across
    entity instances".  [isinstance(other, self.__class__)] is equality of
    the classes: no class of the model has a subclass. *)
Definition __eq__ (self other : pyval) : bool :=
  match self, other with
  | PObj _ _ _ _, PObj _ _ _ _ => py_eq self other
  | _, _ => false
  end.

(** Modelled from the spec: the hash of an instance is the hash of its
    [_id]; [hash] is the builtin, which raises on unhashable values. *)
Definition __hash__ (hash : pyval -> result Z) (self : pyval) : result Z :=
  match self with
  | PObj _ _ _id _ => hash _id
  | _ => Raise TypeError
  end.

(** Modelled from the spec: the constructors of the classes that are not
    under [src/] ([User], [ChatPhoto], [PhotoSize], [Document], ...): the
    entity holds the parsed fields as its attributes and is locked. *)
Definition opaque (cls : class) (kwargs : dict) : result pyval :=
  Ok (PObj cls true PNone kwargs).

End BaleObject.

Abbreviation setattr := BaleObject.__setattr__.
Abbreviation getattr := BaleObject.getattr.
Abbreviation MissingValue := PMissing.
Abbreviation required := BaleObject.required.
Abbreviation optional := BaleObject.optional.

(** ** Entities whose class is not under [src/]

    [Message.from_dict], [Chat.from_dict] and [ChatMember.from_dict] call the
    [from_dict] of these classes; each is [BaleObject.from_dict] at its
    class. *)

Module User.
Definition from_dict := BaleObject.from_dict (BaleObject.opaque CUser).
End User.

Module ChatPhoto.
Definition from_dict := BaleObject.from_dict (BaleObject.opaque CChatPhoto).
End ChatPhoto.

Module PhotoSize.
Definition from_dict := BaleObject.from_dict (BaleObject.opaque CPhotoSize).
End PhotoSize.

Module Document.
Definition from_dict := BaleObject.from_dict (BaleObject.opaque CDocument).
End Document.

Module Audio.
Definition from_dict := BaleObject.from_dict (BaleObject.opaque CAudio).
End Audio.

Module Voice.
Definition from_dict := BaleObject.from_dict (BaleObject.opaque CVoice).
End Voice.

Module Location.
Definition from_dict := BaleObject.from_dict (BaleObject.opaque CLocation).
End Location.

Module Animation.
Definition from_dict := BaleObject.from_dict (BaleObject.opaque CAnimation).
End Animation.

Module SuccessfulPayment.
Definition from_dict :=
  BaleObject.from_dict (BaleObject.opaque CSuccessfulPayment).
End SuccessfulPayment.

Module Sticker.
Definition from_dict := BaleObject.from_dict (BaleObject.opaque CSticker).
End Sticker.

Module Invoice.
Definition from_dict := BaleObject.from_dict (BaleObject.opaque CInvoice).
End Invoice.

(** ** The bot client

    The shortcut methods of the entities forward a call to the client that
    [self.get_bot()] returns.  The client is outside the model: it is a
    function from the name of the method, the positional arguments and the
    keyword arguments to what the awaited call returns or raises. *)
Definition bot_client : Type :=
  string -> list pyval -> dict -> result pyval.

(** [isinstance(v, User)] *)
Definition is_User (v : pyval) : bool :=
  match v with
  | PObj CUser _ _ _ => true
  | _ => false
  end.

(** ** Chat ([bale/_chat.py]) *)

Module Chat.

Definition PRIVATE : string := "private".
Definition GROUP : string := "group".
Definition CHANNEL : string := "channel".

Definition __init__
  (chat_id chat_type title username first_name last_name photo invite_link
     : pyval) : result pyval :=
  let self := BaleObject.__init__ CChat in
  self <- setattr self "_id" chat_id ;;
  self <- setattr self "id" chat_id ;;
  self <- setattr self "type" chat_type ;;
  self <- setattr self "title" title ;;
  self <- setattr self "username" username ;;
  self <- setattr self "first_name" first_name ;;
  self <- setattr self "last_name" last_name ;;
  self <- setattr self "photo" photo ;;
  self <- setattr self "invite_link" invite_link ;;
  BaleObject._lock self.

(** The signature of [__init__]: [chat_id] and [chat_type] have no default,
    the others default to [MissingValue]. *)
Definition call (kwargs : dict) : result pyval :=
  chat_id <- required kwargs "chat_id" ;;
  chat_type <- required kwargs "chat_type" ;;
  __init__ chat_id chat_type
    (optional kwargs "title" MissingValue)
    (optional kwargs "username" MissingValue)
    (optional kwargs "first_name" MissingValue)
    (optional kwargs "last_name" MissingValue)
    (optional kwargs "photo" MissingValue)
    (optional kwargs "invite_link" MissingValue).

Definition is_private_chat (self : pyval) : result pyval :=
  t <- getattr self "type" ;; Ok (PBool (py_eq t (PStr PRIVATE))).

Definition is_group_chat (self : pyval) : result pyval :=
  t <- getattr self "type" ;; Ok (PBool (py_eq t (PStr GROUP))).

Definition is_channel_chat (self : pyval) : result pyval :=
  t <- getattr self "type" ;; Ok (PBool (py_eq t (PStr CHANNEL))).

Definition from_dict (data : pyval) : result pyval :=
  let data := BaleObject.parse_data data in
  if negb (truthy data) then Ok PNone
  else
    ' (v, data) <- py_pop data "id" ;;
    data <- py_setitem data "chat_id" v ;;
    ' (v, data) <- py_pop data "type" ;;
    data <- py_setitem data "chat_type" v ;;
    v <- py_get data "photo" PNone ;;
    photo <- ChatPhoto.from_dict v ;;
    data <- py_setitem data "photo" photo ;;
    BaleObject.from_dict call data.

Section Shortcuts.

(** [BaleObject.get_bot] is not under [src/]: it is a parameter, which returns
    the client of the instance or raises. *)
Variable get_bot : pyval -> result bot_client.

(** [if isinstance(user, User): user = user.user_id] *)
Definition user_or_id (user : pyval) : result pyval :=
  if is_User user then getattr user "user_id" else Ok user.

Definition send (self text components delete_after : pyval) : result pyval :=
  bot <- get_bot self ;;
  chat_id <- getattr self "id" ;;
  bot "send_message" [chat_id; text]
    [("components", components); ("delete_after", delete_after)].

Definition copy_message
  (self chat_id message_id reply_to_message_id delete_after : pyval)
  : result pyval :=
  bot <- get_bot self ;;
  from_chat_id <- getattr self "id" ;;
  bot "copy_message" [chat_id; from_chat_id; message_id]
    [("reply_to_message_id", reply_to_message_id);
     ("delete_after", delete_after)].

(** [leave] and [add_user] await the call and have no [return]. *)
Definition leave (self : pyval) : result pyval :=
  bot <- get_bot self ;;
  chat_id <- getattr self "id" ;;
  _ <- bot "leave_chat" [chat_id] [] ;;
  Ok PNone.

Definition add_user (self user : pyval) : result pyval :=
  user <- user_or_id user ;;
  bot <- get_bot self ;;
  chat_id <- getattr self "id" ;;
  _ <- bot "invite_user" [chat_id; user] [] ;;
  Ok PNone.

Definition get_member (self user : pyval) : result pyval :=
  user <- user_or_id user ;;
  bot <- get_bot self ;;
  chat_id <- getattr self "id" ;;
  bot "get_chat_member" [chat_id] [("user_id", user)].

Definition ban_member (self user : pyval) : result pyval :=
  user <- user_or_id user ;;
  bot <- get_bot self ;;
  chat_id <- getattr self "id" ;;
  bot "ban_chat_member" [chat_id; user] [].

Definition unban_member (self user only_if_banned : pyval) : result pyval :=
  user <- user_or_id user ;;
  bot <- get_bot self ;;
  chat_id <- getattr self "id" ;;
  bot "unban_chat_member" [chat_id; user]
    [("only_if_banned", only_if_banned)].

End Shortcuts.

End Chat.

(** ** ChatMember ([bale/_chatmember.py]) *)

Module ChatMember.

Definition OWNER : string := "creator".
Definition ADMIN : string := "administrator".
Definition MEMBER : string := "member".

Definition __init__
  (status user is_member can_change_info can_post_messages can_edit_messages
     can_delete_messages can_invite_users can_restrict_members
     can_pin_messages can_promote_members can_send_messages
     can_send_media_messages can_reply_to_story can_send_link_message
     can_send_forwarded_message can_see_members can_add_story can_be_edited
     : pyval) : result pyval :=
  let self := BaleObject.__init__ CChatMember in
  self <- setattr self "status" status ;;
  self <- setattr self "user" user ;;
  self <- setattr self "is_member" is_member ;;
  self <- setattr self "can_change_info" can_change_info ;;
  self <- setattr self "can_post_messages" can_post_messages ;;
  self <- setattr self "can_edit_messages" can_edit_messages ;;
  self <- setattr self "can_delete_messages" can_delete_messages ;;
  self <- setattr self "can_invite_users" can_invite_users ;;
  self <- setattr self "can_restrict_members" can_restrict_members ;;
  self <- setattr self "can_pin_messages" can_pin_messages ;;
  self <- setattr self "can_promote_members" can_promote_members ;;
  self <- setattr self "can_send_messages" can_send_messages ;;
  self <- setattr self "can_send_media_messages" can_send_media_messages ;;
  self <- setattr self "can_reply_to_story" can_reply_to_story ;;
  self <- setattr self "can_send_link_message" can_send_link_message ;;
  self <- setattr self "can_send_forwarded_message" can_send_forwarded_message ;;
  self <- setattr self "can_see_members" can_see_members ;;
  self <- setattr self "can_add_story" can_add_story ;;
  self <- setattr self "can_be_edited" can_be_edited ;;
  u <- getattr self "user" ;;
  uid <- getattr u "id" ;;
  st <- getattr self "status" ;;
  self <- setattr self "_id" (PTuple [uid; st]) ;;
  BaleObject._lock self.

Definition call (kwargs : dict) : result pyval :=
  status <- required kwargs "status" ;;
  user <- required kwargs "user" ;;
  __init__ status user
    (optional kwargs "is_member" MissingValue)
    (optional kwargs "can_change_info" MissingValue)
    (optional kwargs "can_post_messages" MissingValue)
    (optional kwargs "can_edit_messages" MissingValue)
    (optional kwargs "can_delete_messages" MissingValue)
    (optional kwargs "can_invite_users" MissingValue)
    (optional kwargs "can_restrict_members" MissingValue)
    (optional kwargs "can_pin_messages" MissingValue)
    (optional kwargs "can_promote_members" MissingValue)
    (optional kwargs "can_send_messages" MissingValue)
    (optional kwargs "can_send_media_messages" MissingValue)
    (optional kwargs "can_reply_to_story" MissingValue)
    (optional kwargs "can_send_link_message" MissingValue)
    (optional kwargs "can_send_forwarded_message" MissingValue)
    (optional kwargs "can_see_members" MissingValue)
    (optional kwargs "can_add_story" MissingValue)
    (optional kwargs "can_be_edited" MissingValue).

Definition is_owner (self : pyval) : result pyval :=
  st <- getattr self "status" ;; Ok (PBool (py_eq st (PStr OWNER))).

Definition is_admin (self : pyval) : result pyval :=
  st <- getattr self "status" ;;
  Ok (PBool (py_in st [PStr OWNER; PStr ADMIN])).

Definition from_dict (data : pyval) : result pyval :=
  let data := BaleObject.parse_data data in
  if negb (truthy data) then Ok PNone
  else
    v <- py_get data "user" PNone ;;
    user <- User.from_dict v ;;
    data <- py_setitem data "user" user ;;
    BaleObject.from_dict call data.

End ChatMember.

(** ** Contact ([bale/attachments/_contact.py]) *)

Module Contact.

Definition __init__ (phone_number first_name last_name user_id : pyval)
  : result pyval :=
  let self := BaleObject.__init__ CContact in
  self <- setattr self "_id" user_id ;;
  self <- setattr self "phone_number" phone_number ;;
  self <- setattr self "first_name" first_name ;;
  self <- setattr self "last_name" last_name ;;
  self <- setattr self "user_id" user_id ;;
  BaleObject._lock self.

Definition call (kwargs : dict) : result pyval :=
  phone_number <- required kwargs "phone_number" ;;
  first_name <- required kwargs "first_name" ;;
  __init__ phone_number first_name
    (optional kwargs "last_name" MissingValue)
    (optional kwargs "user_id" MissingValue).

(** [Contact] does not override [from_dict]. *)
Definition from_dict := BaleObject.from_dict call.

End Contact.

(** ** Video ([bale/attachments/_video.py]) *)

Module BaseFile.

(** Modelled from the spec: [BaseFile] ([bale/attachments/_basefile.py]) is
    not under [src/]; the spec describes "a common file base with
    [file_id], [file_unique_id], optional [file_size]".  It leaves the
    instance unlocked: the subclass goes on assigning. *)
Definition __init__ (cls : class) (file_id file_unique_id file_size : pyval)
  : result pyval :=
  let self := BaleObject.__init__ cls in
  self <- setattr self "file_id" file_id ;;
  self <- setattr self "file_unique_id" file_unique_id ;;
  setattr self "file_size" file_size.

End BaseFile.

Module Video.

Definition __init__
  (file_id file_unique_id width height duration file_name mime_type file_size
     : pyval) : result pyval :=
  self <- BaseFile.__init__ CVideo file_id file_unique_id file_size ;;
  self <- setattr self "width" width ;;
  self <- setattr self "height" height ;;
  self <- setattr self "duration" duration ;;
  self <- setattr self "file_name" file_name ;;
  self <- setattr self "mime_type" mime_type ;;
  BaleObject._lock self.

Definition call (kwargs : dict) : result pyval :=
  file_id <- required kwargs "file_id" ;;
  file_unique_id <- required kwargs "file_unique_id" ;;
  width <- required kwargs "width" ;;
  height <- required kwargs "height" ;;
  duration <- required kwargs "duration" ;;
  __init__ file_id file_unique_id width height duration
    (optional kwargs "file_name" MissingValue)
    (optional kwargs "mime_type" MissingValue)
    (optional kwargs "file_size" MissingValue).

Definition from_dict := BaleObject.from_dict call.

End Video.

(** ** Message ([bale/_message.py]) *)

Module Message.

Definition __init__
  (message_id date text caption forward_from forward_from_chat
     forward_from_message_id from_user document contact edit_date location
     chat video photos sticker reply_to_message invoice audio voice
     successful_payment animation new_chat_members left_chat_member
     : pyval) : result pyval :=
  let self := BaleObject.__init__ CMessage in
  self <- setattr self "_id" message_id ;;
  self <- setattr self "message_id" message_id ;;
  self <- setattr self "date" date ;;
  self <- setattr self "text" text ;;
  self <- setattr self "chat" chat ;;
  self <- setattr self "reply_to_message" reply_to_message ;;
  self <- setattr self "from_user" from_user ;;
  self <- setattr self "forward_from" forward_from ;;
  self <- setattr self "forward_from_message_id" forward_from_message_id ;;
  self <- setattr self "forward_from_chat" forward_from_chat ;;
  self <- setattr self "edit_date" edit_date ;;
  self <- setattr self "caption" caption ;;
  self <- setattr self "document" document ;;
  self <- setattr self "video" video ;;
  self <- setattr self "animation" animation ;;
  self <- setattr self "audio" audio ;;
  self <- setattr self "voice" voice ;;
  self <- setattr self "photos" photos ;;
  self <- setattr self "contact" contact ;;
  self <- setattr self "location" location ;;
  self <- setattr self "sticker" sticker ;;
  self <- setattr self "new_chat_members" new_chat_members ;;
  self <- setattr self "left_chat_member" left_chat_member ;;
  self <- setattr self "invoice" invoice ;;
  self <- setattr self "successful_payment" successful_payment ;;
  BaleObject._lock self.

(** The signature of [__init__]: [message_id] and [date] have no default,
    every other parameter defaults to [MissingValue]. *)
Definition call (kwargs : dict) : result pyval :=
  message_id <- required kwargs "message_id" ;;
  date <- required kwargs "date" ;;
  __init__ message_id date
    (optional kwargs "text" MissingValue)
    (optional kwargs "caption" MissingValue)
    (optional kwargs "forward_from" MissingValue)
    (optional kwargs "forward_from_chat" MissingValue)
    (optional kwargs "forward_from_message_id" MissingValue)
    (optional kwargs "from_user" MissingValue)
    (optional kwargs "document" MissingValue)
    (optional kwargs "contact" MissingValue)
    (optional kwargs "edit_date" MissingValue)
    (optional kwargs "location" MissingValue)
    (optional kwargs "chat" MissingValue)
    (optional kwargs "video" MissingValue)
    (optional kwargs "photos" MissingValue)
    (optional kwargs "sticker" MissingValue)
    (optional kwargs "reply_to_message" MissingValue)
    (optional kwargs "invoice" MissingValue)
    (optional kwargs "audio" MissingValue)
    (optional kwargs "voice" MissingValue)
    (optional kwargs "successful_payment" MissingValue)
    (optional kwargs "animation" MissingValue)
    (optional kwargs "new_chat_members" MissingValue)
    (optional kwargs "left_chat_member" MissingValue).

Definition id (self : pyval) : result pyval := getattr self "message_id".

Definition author (self : pyval) : result pyval := getattr self "from_user".

Definition attachment (self : pyval) : result pyval :=
  attachment <-
    (video <- getattr self "video" ;;
     py_or video
       (photos <- getattr self "photos" ;;
        py_or photos
          (audio <- getattr self "audio" ;;
           py_or audio
             (animation <- getattr self "animation" ;;
              py_or animation
                (voice <- getattr self "voice" ;;
                 py_or voice (getattr self "document")))))) ;;
  if negb (truthy attachment) then Ok PNone else Ok attachment.

Definition content (self : pyval) : result pyval :=
  caption <- getattr self "caption" ;;
  py_or caption (getattr self "text").

Definition chat_id (self : pyval) : result pyval :=
  chat <- getattr self "chat" ;;
  if negb (truthy chat) then Ok PNone else getattr chat "id".

Definition reply_to_message_id (self : pyval) : result pyval :=
  reply <- getattr self "reply_to_message" ;;
  if negb (truthy reply) then Ok PNone else getattr reply "message_id".

Section Decoding.

(** [bale/helpers.py] is not under [src/]: [parse_time] is a parameter of
    the decoder. *)
Variable parse_time : pyval -> result pyval.

(** [data[dst] = f(data.get(src, default))] and
    [data[dst] = f(data.pop(src, default))]: the right-hand side is
    evaluated before the store. *)
Definition assign_get (f : pyval -> result pyval) (dst src : string)
  (default : pyval) (data : pyval) : result pyval :=
  v <- py_get data src default ;;
  x <- f v ;;
  py_setitem data dst x.

Definition assign_pop (f : pyval -> result pyval) (dst src : string)
  (default : pyval) (data : pyval) : result pyval :=
  ' (v, data) <- py_pop_default data src default ;;
  x <- f v ;;
  py_setitem data dst x.

(** [[from_dict(payload, bot) for payload in v]] *)
Definition decode_list (from_dict : pyval -> result pyval) (v : pyval)
  : result pyval :=
  payloads <- py_iter v ;;
  entities <- comprehension from_dict payloads ;;
  Ok (PList entities).

(** [[...] or None] *)
Definition decode_list_or_None (from_dict : pyval -> result pyval)
  (v : pyval) : result pyval :=
  entities <- decode_list from_dict v ;;
  py_or entities (Ok PNone).

(** Lines 197 to 201. *)
Definition decode_head (data : pyval) : result pyval :=
  data <- assign_get parse_time "date" "date" PNone data ;;
  data <- assign_pop User.from_dict "from_user" "from" PNone data ;;
  data <- assign_get Chat.from_dict "chat" "chat" PNone data ;;
  data <- assign_get User.from_dict "forward_from" "forward_from" PNone data ;;
  assign_get Chat.from_dict "forward_from_chat" "forward_from_chat" PNone data.

(** Lines 203 to 215. *)
Definition decode_tail (data : pyval) : result pyval :=
  data <- assign_pop parse_time "edit_date" "edit_date" PNone data ;;
  data <- assign_pop (decode_list PhotoSize.from_dict)
            "photos" "photo" (PList []) data ;;
  data <- assign_get Document.from_dict "document" "document" PNone data ;;
  data <- assign_get Audio.from_dict "audio" "audio" PNone data ;;
  data <- assign_get Voice.from_dict "voice" "voice" PNone data ;;
  data <- assign_get Location.from_dict "location" "location" PNone data ;;
  data <- assign_get Contact.from_dict "contact" "contact" PNone data ;;
  data <- assign_get Animation.from_dict "animation" "animation" PNone data ;;
  data <- assign_get SuccessfulPayment.from_dict
            "successful_payment" "successful_payment" PNone data ;;
  data <- assign_get Sticker.from_dict "sticker" "sticker" PNone data ;;
  data <- assign_get Invoice.from_dict "invoice" "invoice" PNone data ;;
  data <- assign_get (decode_list_or_None User.from_dict)
            "new_chat_members" "new_chat_members" (PList []) data ;;
  assign_get User.from_dict
    "left_chat_member" "left_chat_member" PNone data.

(** The body of [from_dict], with [self_from_dict] for the call
    [Message.from_dict] of line 202. *)
Definition from_dict_body (self_from_dict : pyval -> result pyval)
  (data : pyval) : result pyval :=
  let data := BaleObject.parse_data data in
  if negb (truthy data) then Ok PNone
  else
    data <- decode_head data ;;
    data <- assign_get self_from_dict
              "reply_to_message" "reply_to_message" PNone data ;;
    data <- decode_tail data ;;
    BaleObject.from_dict call data.

(** [from_dict] recurses on the value under ["reply_to_message"].  Lines
    197 to 201 store under other keys, so line 202 reads what the
    payload has there; the recursive call is made on that sub-term. *)
Fixpoint from_dict (data : pyval) {struct data} : result pyval :=
  let reply : result pyval :=
    match data with
    | PDict payload =>
        match get_with from_dict "reply_to_message" payload with
        | Some r => r
        | None => Ok PNone
        end
    | _ => Ok PNone
    end in
  from_dict_body (fun _ => reply) data.

End Decoding.

(** Modelled from the spec: [helpers.parse_time] is not under [src/].  The
    spec calls [date] a timestamp; [from_dict] also applies it to
    [data.pop('edit_date', None)], so it takes [None].  An integer becomes a
    datetime, anything else [None]. *)
Definition parse_time_model (v : pyval) : result pyval :=
  match v with
  | PInt t => Ok (PDatetime t)
  | _ => Ok PNone
  end.

(** The number of Messages on the chain that starts at [v] and follows
    [reply_to_message]. *)
Fixpoint reply_chain (v : pyval) : nat :=
  match v with
  | PObj CMessage _ _ slots =>
      match get_with reply_chain "reply_to_message" slots with
      | Some n => S n
      | None => 1%nat
      end
  | _ => 0%nat
  end.

(** The nesting depth of the parsed replies of a Message. *)
Definition reply_depth (m : pyval) : nat := Nat.pred (reply_chain m).

(** The number of non-empty payloads on the chain that starts at [v] and
    follows the key ["reply_to_message"]. *)
Fixpoint payload_chain (v : pyval) : nat :=
  if truthy v then
    match v with
    | PDict payload =>
        match get_with payload_chain "reply_to_message" payload with
        | Some n => S n
        | None => 1%nat
        end
    | _ => 1%nat
    end
  else 0%nat.

Section Shortcuts.

(** [BaleObject.get_bot] is not under [src/]: it is a parameter, which returns
    the client of the instance or raises. *)
Variable get_bot : pyval -> result bot_client.

Definition reply (self text components delete_after : pyval) : result pyval :=
  bot <- get_bot self ;;
  to <- chat_id self ;;
  message_id <- getattr self "message_id" ;;
  bot "send_message" [to; text]
    [("components", components); ("reply_to_message_id", message_id);
     ("delete_after", delete_after)].

Definition forward (self chat_id' : pyval) : result pyval :=
  bot <- get_bot self ;;
  from_chat_id <- chat_id self ;;
  message_id <- getattr self "message_id" ;;
  bot "forward_message" [chat_id'; from_chat_id; message_id] [].

Definition reply_contact (self contact components delete_after : pyval)
  : result pyval :=
  bot <- get_bot self ;;
  to <- chat_id self ;;
  message_id <- getattr self "message_id" ;;
  bot "send_contact" [to; contact]
    [("components", components); ("reply_to_message_id", message_id);
     ("delete_after", delete_after)].

(** Line 458 passes [self.id], the id of the message. *)
Definition reply_media_group (self media components : pyval) : result pyval :=
  bot <- get_bot self ;;
  to <- id self ;;
  bot "send_media_group" [to; media] [("components", components)].

Definition copy (self chat_id' reply_to_message_id delete_after : pyval)
  : result pyval :=
  bot <- get_bot self ;;
  from_chat_id <- chat_id self ;;
  message_id <- id self ;;
  bot "copy_message" [chat_id'; from_chat_id; message_id]
    [("reply_to_message_id", reply_to_message_id);
     ("delete_after", delete_after)].

Definition edit (self text components : pyval) : result pyval :=
  bot <- get_bot self ;;
  to <- chat_id self ;;
  message_id <- getattr self "message_id" ;;
  bot "edit_message" [to; message_id; text] [("components", components)].

Definition delete (self delay : pyval) : result pyval :=
  bot <- get_bot self ;;
  to <- chat_id self ;;
  message_id <- getattr self "message_id" ;;
  bot "delete_message" [to; message_id] [("delay", delay)].

End Shortcuts.

End Message.

(** ** The error taxonomy ([bale/_error.py]) *)

(** *** String methods *)

(** [str.lower] on the letters A to Z; any other character is kept. *)
Definition lower_ascii (c : ascii) : ascii :=
  let n := nat_of_ascii c in
  if (Nat.leb 65 n && Nat.leb n 90)%bool then ascii_of_nat (n + 32) else c.

Fixpoint lower (s : string) : string :=
  match s with
  | EmptyString => EmptyString
  | String c r => String (lower_ascii c) (lower r)
  end.

Definition startswith (s p : string) : bool := String.prefix p s.

(** [needle in hay] for two strings. *)
Fixpoint contains (needle hay : string) : bool :=
  String.prefix needle hay ||
  match hay with
  | EmptyString => false
  | String _ r => contains needle r
  end.

(** The same on an arbitrary value: only a string has [lower] and
    [startswith]; [in] also works on the containers. *)
Definition py_lower (v : pyval) : result pyval :=
  match v with
  | PStr s => Ok (PStr (lower s))
  | _ => Raise AttributeError
  end.

Definition py_startswith (v : pyval) (p : string) : result pyval :=
  match v with
  | PStr s => Ok (PBool (startswith s p))
  | _ => Raise AttributeError
  end.

Definition py_contains (needle : string) (v : pyval) : result pyval :=
  match v with
  | PStr s => Ok (PBool (contains needle s))
  | PList l | PTuple l => Ok (PBool (py_in (PStr needle) l))
  | PDict d => Ok (PBool (existsb (String.eqb needle) (keys d)))
  | _ => Raise TypeError
  end.

Module HTTPClientError.
Definition USER_OR_CHAT_NOT_FOUND : string := "no such group or user".
Definition TOKEN_NOT_FOUND : string := "Bad Request: Token not found".
Definition RATE_LIMIT : string := "bot limit exceed".
Definition LOCAL_RATE_LIMIT : string := "local_rate_limited".
Definition PERMISSION_DENIED : string := "permission_denied".
End HTTPClientError.

(** The response of the server, as far as the error classes read it
    ([bale.request.parser.ResponseParser] is not under [src/]): its attribute
    [description].  An absent response is [None]. *)
Record ResponseParser : Type := { description : pyval }.

Module BaleError.
Definition check_description (description : pyval) : result pyval :=
  Ok (PBool false).

(** A static method that names [BaleError.check_description]: the subclasses
    inherit it as it is.  [None] has no attribute [description]. *)
Definition check_response (response : option ResponseParser) : result pyval :=
  match response with
  | Some r => check_description (description r)
  | None => Raise AttributeError
  end.

(** [__init__]: the value of [self.message]. *)
Definition __init__ (message : pyval) : pyval := message.
End BaleError.

Module InvalidToken.
Definition check_description (description : pyval) : result pyval :=
  py_and description
    (l <- py_lower description ;; py_contains "token not found" l).

(** [super().__init__(message or "Invalid Token")] *)
Definition __init__ (message : pyval) : pyval :=
  BaleError.__init__ (if truthy message then message else PStr "Invalid Token").
End InvalidToken.

Module NotFound.
Definition check_description (description : pyval) : result pyval :=
  py_and description
    (py_contains HTTPClientError.USER_OR_CHAT_NOT_FOUND description).

(** [super().__init__(message or "Not Found")] *)
Definition __init__ (message : pyval) : pyval :=
  BaleError.__init__ (if truthy message then message else PStr "Not Found").
End NotFound.

Module Forbidden.
Definition check_description (description : pyval) : result pyval :=
  py_and description (py_startswith description "Forbidden:").

Definition __init__ (err : pyval) : pyval := BaleError.__init__ err.
End Forbidden.

Module BadRequest.
Definition check_description (description : pyval) : result pyval :=
  py_and description (py_startswith description "Bad Request:").

Definition __init__ (err : pyval) : pyval := BaleError.__init__ err.
End BadRequest.

Module APIError.
(** [super().__init__(f"{error_code}: {message}")]; [str] is the builtin that
    formats a value. *)
Definition __init__ (str : pyval -> string) (error_code message : pyval)
  : pyval :=
  BaleError.__init__ (PStr (str error_code ++ ": " ++ str message)).
End APIError.

Module TimeOut.
Definition __init__ : pyval := BaleError.__init__ (PStr "Time Out").
End TimeOut.

Module RateLimited.
Definition __init__ : pyval := BaleError.__init__ (PStr "We are Rate Limited").
End RateLimited.

Module HTTPException.
Definition __init__ (err : pyval) : pyval := BaleError.__init__ err.
End HTTPException.

(** The classes of [__ERROR_CLASSES__]. *)
Inductive error_class : Type :=
| EBaleError
| EInvalidToken
| EAPIError
| ENetworkError
| ETimeOut
| ENotFound
| EForbidden
| EBadRequest
| ERateLimited
| EHTTPException.

Definition __ERROR_CLASSES__ : list error_class :=
  [EBaleError; EInvalidToken; EAPIError; ENetworkError; ETimeOut; ENotFound;
   EForbidden; EBadRequest; ERateLimited; EHTTPException].

(** [cls.check_description]: the classes that do not define it inherit the
    one of [BaleError]. *)
Definition check_description (cls : error_class) : pyval -> result pyval :=
  match cls with
  | EInvalidToken => InvalidToken.check_description
  | ENotFound => NotFound.check_description
  | EForbidden => Forbidden.check_description
  | EBadRequest => BadRequest.check_description
  | EBaleError | EAPIError | ENetworkError | ETimeOut | ERateLimited
  | EHTTPException => BaleError.check_description
  end.

(** Modelled from the spec: the classifier of a server response is in the
    transport layer, which is not under [src/].  The spec has it "try each
    kind's [check_description] predicate in a fixed priority order
    (invalid-token, not-found, forbidden, bad-request) and construct the first
    kind whose predicate matches; if none match, fall back to the generic
    kind".  [APIError] is the generic kind of a 400-class response. *)
Definition priority : list error_class :=
  [EInvalidToken; ENotFound; EForbidden; EBadRequest].

Fixpoint first_match (kinds : list error_class) (description : pyval)
  : result (option error_class) :=
  match kinds with
  | [] => Ok None
  | cls :: rest =>
      matched <- check_description cls description ;;
      if truthy matched then Ok (Some cls) else first_match rest description
  end.

Definition classify (description : pyval) : result error_class :=
  found <- first_match priority description ;;
  Ok (match found with
      | Some cls => cls
      | None => EAPIError
      end).

(** ** Vocabulary of the statements *)

(** The constructor of each class, applied to keyword arguments. *)
Definition constructor (cls : class) : dict -> result pyval :=
  match cls with
  | CChat => Chat.call
  | CChatMember => ChatMember.call
  | CMessage => Message.call
  | CContact => Contact.call
  | CVideo => Video.call
  | _ => BaleObject.opaque cls
  end.

(** A field is present when it holds a value that counts as one: not the
    sentinel, not [None], not an empty list. *)
Definition present (v : pyval) : bool := truthy v.

(** The first present value of a list of fields, [None] when there is
    none. *)
Definition first_present (fields : list pyval) : pyval :=
  match find present fields with
  | Some v => v
  | None => PNone
  end.

(** *** Payloads that [from_dict] accepts *)

Definition is_Ok {A : Type} (r : result A) : bool :=
  match r with
  | Ok _ => true
  | Raise _ => false
  end.

Definition has_key (k : string) (d : dict) : bool :=
  match dict_get k d with
  | Some _ => true
  | None => false
  end.

(** The payload of an entity whose class is not under [src/]: empty or
    absent, or a dict. *)
Definition entity_payload (v : pyval) : bool :=
  negb (truthy v) ||
  match v with
  | PDict _ => true
  | _ => false
  end.

(** The payload of a Chat: when it is not empty it has the keys that
    [Chat.from_dict] pops. *)
Definition chat_payload (v : pyval) : bool :=
  negb (truthy v) ||
  match v with
  | PDict d =>
      has_key "id" d && has_key "type" d &&
      entity_payload (dict_get_default d "photo" PNone)
  | _ => false
  end.

(** The payload of a Contact: when it is not empty it has the arguments
    without default. *)
Definition contact_payload (v : pyval) : bool :=
  negb (truthy v) ||
  match v with
  | PDict d => has_key "phone_number" d && has_key "first_name" d
  | _ => false
  end.

(** A list of entity payloads. *)
Definition entity_list_payload (v : pyval) : bool :=
  match py_iter v with
  | Ok l => forallb entity_payload l
  | Raise _ => false
  end.

(** The keys whose value goes to the [from_dict] of a class that is not
    under [src/]. *)
Definition entity_keys : list string :=
  ["from"; "forward_from"; "document"; "audio"; "voice"; "location";
   "animation"; "successful_payment"; "sticker"; "invoice";
   "left_chat_member"].

(** A Message payload that [Message.from_dict] decodes without raising: a
    non-empty dict with a [message_id], whose nested payloads are accepted by
    their decoders, and so on along ["reply_to_message"]. *)
Fixpoint message_payload (parse_time : pyval -> result pyval) (data : pyval)
  {struct data} : bool :=
  match data with
  | PDict d =>
      truthy (PDict d) && has_key "message_id" d &&
      is_Ok (parse_time (dict_get_default d "date" PNone)) &&
      is_Ok (parse_time (dict_get_default d "edit_date" PNone)) &&
      forallb (fun k => entity_payload (dict_get_default d k PNone))
        entity_keys &&
      chat_payload (dict_get_default d "chat" PNone) &&
      chat_payload (dict_get_default d "forward_from_chat" PNone) &&
      contact_payload (dict_get_default d "contact" PNone) &&
      entity_list_payload (dict_get_default d "photo" (PList [])) &&
      entity_list_payload (dict_get_default d "new_chat_members" (PList [])) &&
      match
        get_with (fun r => negb (truthy r) || message_payload parse_time r)
          "reply_to_message" d
      with
      | Some ok => ok
      | None => true
      end
  | _ => false
  end.

(** The optional fields of a Message that [from_dict] hands to the
    constructor as the payload has them. *)
Definition plain_fields : list string :=
  ["text"; "caption"; "forward_from_message_id"; "video"].

(** The fields of a Message that [from_dict] decodes with the [from_dict] of
    another entity, each with its key on the wire. *)
Definition nested_fields : list (string * string) :=
  [("from_user", "from"); ("chat", "chat"); ("forward_from", "forward_from");
   ("forward_from_chat", "forward_from_chat");
   ("reply_to_message", "reply_to_message"); ("document", "document");
   ("audio", "audio"); ("voice", "voice"); ("location", "location");
   ("contact", "contact"); ("animation", "animation");
   ("successful_payment", "successful_payment"); ("sticker", "sticker");
   ("invoice", "invoice"); ("left_chat_member", "left_chat_member")].

(** *** Example payloads *)

Definition reply_payload_3 : pyval :=
  PDict [("message_id", PInt 3); ("date", PInt 30); ("text", PStr "first")].

Definition reply_payload_2 : pyval :=
  PDict [("message_id", PInt 2); ("date", PInt 20); ("text", PStr "second");
         ("reply_to_message", reply_payload_3)].

(** A payload whose [reply_to_message] holds a [reply_to_message] of its
    own. *)
Definition reply_payload_1 : pyval :=
  PDict [("message_id", PInt 1); ("date", PInt 10); ("text", PStr "third");
         ("reply_to_message", reply_payload_2)].

(** A payload with the two arguments without default and nothing else. *)
Definition bare_payload : pyval :=
  PDict [("message_id", PInt 1); ("date", PInt 10)].

(** *** What [Message.from_dict] builds

    [decodes parse_time d self]: [self] is the Message whose fields are the
    values that the decoders return on the entries of the payload [d]. *)
Definition decodes (parse_time : pyval -> result pyval) (d : dict)
  (self : pyval) : Prop :=
  exists message_id date from_user chat forward_from forward_from_chat
         reply_to_message edit_date photos document audio voice location
         contact animation successful_payment sticker invoice
         new_chat_members left_chat_member,
    dict_get "message_id" d = Some message_id /\
    parse_time (dict_get_default d "date" PNone) = Ok date /\
    User.from_dict (dict_get_default d "from" PNone) = Ok from_user /\
    Chat.from_dict (dict_get_default d "chat" PNone) = Ok chat /\
    User.from_dict (dict_get_default d "forward_from" PNone)
      = Ok forward_from /\
    Chat.from_dict (dict_get_default d "forward_from_chat" PNone)
      = Ok forward_from_chat /\
    Message.from_dict parse_time
      (dict_get_default d "reply_to_message" PNone) = Ok reply_to_message /\
    parse_time (dict_get_default d "edit_date" PNone) = Ok edit_date /\
    Message.decode_list PhotoSize.from_dict
      (dict_get_default d "photo" (PList [])) = Ok photos /\
    Document.from_dict (dict_get_default d "document" PNone) = Ok document /\
    Audio.from_dict (dict_get_default d "audio" PNone) = Ok audio /\
    Voice.from_dict (dict_get_default d "voice" PNone) = Ok voice /\
    Location.from_dict (dict_get_default d "location" PNone) = Ok location /\
    Contact.from_dict (dict_get_default d "contact" PNone) = Ok contact /\
    Animation.from_dict (dict_get_default d "animation" PNone)
      = Ok animation /\
    SuccessfulPayment.from_dict
      (dict_get_default d "successful_payment" PNone)
      = Ok successful_payment /\
    Sticker.from_dict (dict_get_default d "sticker" PNone) = Ok sticker /\
    Invoice.from_dict (dict_get_default d "invoice" PNone) = Ok invoice /\
    Message.decode_list_or_None User.from_dict
      (dict_get_default d "new_chat_members" (PList []))
      = Ok new_chat_members /\
    User.from_dict (dict_get_default d "left_chat_member" PNone)
      = Ok left_chat_member /\
    self =
      PObj CMessage true message_id
        [("message_id", message_id); ("date", date);
         ("text", optional d "text" MissingValue);
         ("chat", chat);
         ("reply_to_message", reply_to_message);
         ("from_user", from_user);
         ("forward_from", forward_from);
         ("forward_from_message_id",
           optional d "forward_from_message_id" MissingValue);
         ("forward_from_chat", forward_from_chat);
         ("edit_date", edit_date);
         ("caption", optional d "caption" MissingValue);
         ("document", document);
         ("video", optional d "video" MissingValue);
         ("animation", animation);
         ("audio", audio);
         ("voice", voice);
         ("photos", photos);
         ("contact", contact);
         ("location", location);
         ("sticker", sticker);
         ("new_chat_members", new_chat_members);
         ("left_chat_member", left_chat_member);
         ("invoice", invoice);
         ("successful_payment", successful_payment)].

(** The parameters of each constructor under [src/] that default to
    [MissingValue]. *)
Definition optional_params (cls : class) : list string :=
  match cls with
  | CChat =>
      ["title"; "username"; "first_name"; "last_name"; "photo"; "invite_link"]
  | CChatMember =>
      ["is_member"; "can_change_info"; "can_post_messages";
       "can_edit_messages"; "can_delete_messages"; "can_invite_users";
       "can_restrict_members"; "can_pin_messages"; "can_promote_members";
       "can_send_messages"; "can_send_media_messages"; "can_reply_to_story";
       "can_send_link_message"; "can_send_forwarded_message";
       "can_see_members"; "can_add_story"; "can_be_edited"]
  | CMessage =>
      ["text"; "caption"; "forward_from"; "forward_from_chat";
       "forward_from_message_id"; "from_user"; "document"; "contact";
       "edit_date"; "location"; "chat"; "video"; "photos"; "sticker";
       "reply_to_message"; "invoice"; "audio"; "voice"; "successful_payment";
       "animation"; "new_chat_members"; "left_chat_member"]
  | CContact => ["last_name"; "user_id"]
  | CVideo => ["file_name"; "mime_type"; "file_size"]
  | _ => []
  end.

(** The optional fields of a Chat that [Chat.from_dict] hands to the
    constructor as the payload has them. *)
Definition chat_plain_fields : list string :=
  ["title"; "username"; "first_name"; "last_name"; "invite_link"].

(** ** Instances of the error classes *)

(** An exception of the taxonomy: its class and its one slot, [message]. *)
Record error : Type := { error_cls : error_class; message : pyval }.

(** [cls.check_response]: no class overrides the static method of
    [BaleError]. *)
Definition check_response (cls : error_class)
  : option ResponseParser -> result pyval :=
  BaleError.check_response.

(** [cls( *args )]: the positional arguments are bound to the parameters of
    the [__init__] of the class; a parameter with a default ([message=None],
    [err=None]) may be left out; any other number of arguments is a
    [TypeError].  [NetworkError] defines no [__init__] and has the one of
    [BaleError]. *)
Definition new (str : pyval -> string) (cls : error_class) (args : list pyval)
  : result error :=
  match cls, args with
  | EBaleError, [m] => Ok {| error_cls := cls; message := BaleError.__init__ m |}
  | ENetworkError, [m] =>
      Ok {| error_cls := cls; message := BaleError.__init__ m |}
  | EInvalidToken, [] =>
      Ok {| error_cls := cls; message := InvalidToken.__init__ PNone |}
  | EInvalidToken, [m] =>
      Ok {| error_cls := cls; message := InvalidToken.__init__ m |}
  | EAPIError, [code; m] =>
      Ok {| error_cls := cls; message := APIError.__init__ str code m |}
  | ETimeOut, [] => Ok {| error_cls := cls; message := TimeOut.__init__ |}
  | ENotFound, [] =>
      Ok {| error_cls := cls; message := NotFound.__init__ PNone |}
  | ENotFound, [m] => Ok {| error_cls := cls; message := NotFound.__init__ m |}
  | EForbidden, [] =>
      Ok {| error_cls := cls; message := Forbidden.__init__ PNone |}
  | EForbidden, [e] =>
      Ok {| error_cls := cls; message := Forbidden.__init__ e |}
  | EBadRequest, [e] =>
      Ok {| error_cls := cls; message := BadRequest.__init__ e |}
  | ERateLimited, [] =>
      Ok {| error_cls := cls; message := RateLimited.__init__ |}
  | EHTTPException, [e] =>
      Ok {| error_cls := cls; message := HTTPException.__init__ e |}
  | _, _ => Raise TypeError
  end.

(** [BaleError.__reduce__]: the class and the arguments that [pickle] and
    [copy] call it with to rebuild the instance. *)
Definition __reduce__ (self : error) : error_class * list pyval :=
  (error_cls self, [message self]).

(** Rebuilding an instance from what [__reduce__] returns. *)
Definition rebuild (str : pyval -> string) (self : error) : result error :=
  new str (fst (__reduce__ self)) (snd (__reduce__ self)).

Definition class_name (cls : error_class) : string :=
  match cls with
  | EBaleError => "BaleError"
  | EInvalidToken => "InvalidToken"
  | EAPIError => "APIError"
  | ENetworkError => "NetworkError"
  | ETimeOut => "TimeOut"
  | ENotFound => "NotFound"
  | EForbidden => "Forbidden"
  | EBadRequest => "BadRequest"
  | ERateLimited => "RateLimited"
  | EHTTPException => "HTTPException"
  end.

(** [BaleError.__repr__] *)
Definition __repr__ (str : pyval -> string) (self : error) : string :=
  class_name (error_cls self) ++ ": " ++ str (message self).

(** ** The standalone Chat of [balebot/chat.py] *)

(** [data[k]]: a dict without the key raises [KeyError]; the other values of
    the model are not subscriptable by a string. *)
Definition py_getitem (data : pyval) (k : string) : result pyval :=
  match data with
  | PDict d =>
      match dict_get k d with
      | Some v => Ok v
      | None => Raise KeyError
      end
  | _ => Raise TypeError
  end.

(** [isinstance(v, list)] *)
Definition is_list (v : pyval) : bool :=
  match v with
  | PList _ => true
  | _ => false
  end.

Module Balebot.
Module Chat.

(** The slots of the class that [__init__] assigns. *)
Record t : Type := mk {
  id : pyval;
  type : pyval;
  title : pyval;
  username : pyval;
  first_name : pyval;
  last_name : pyval;
  pinned_message : pyval;
  bot : pyval
}.

(** [all_members_are_administrators] is a parameter, and is not stored. *)
Definition __init__
  (id type title username first_name last_name pinned_message
     all_members_are_administrators bot : pyval) : t :=
  mk id type title username first_name last_name pinned_message bot.

(** [Message.dict] is in [balebot/message.py], which is not under [src/]: it
    is a parameter, applied to [bot] and to the payload. *)
Definition dict (Message_dict : pyval -> pyval -> result pyval)
  (data bot : pyval) : result t :=
  let pinned_message : list pyval := [] in
  v <- py_getitem data "pinned_message" ;;
  pinned_message <-
    (if is_list v then
       l <- py_getitem data "pinned_message" ;;
       items <- py_iter l ;;
       comprehension (fun i => Message_dict bot i) items
     else Ok pinned_message) ;;
  v_id <- py_get data "id" PNone ;;
  v_type <- py_get data "type" PNone ;;
  v_title <- py_get data "title" PNone ;;
  v_username <- py_get data "username" PNone ;;
  v_first_name <- py_get data "first_name" PNone ;;
  v_last_name <- py_get data "last_name" PNone ;;
  v_all <- py_get data "all_members_are_administrators" (PBool true) ;;
  Ok (__init__ v_id v_type v_title v_username v_first_name v_last_name
        (PList pinned_message) v_all bot).

(** [isinstance(i, Message)] and [Message.to_dict] are parameters, for the
    same reason. *)
Definition to_dict (is_Message : pyval -> bool)
  (Message_to_dict : pyval -> result pyval) (self : t) : result pyval :=
  let data := PDict [] in
  let pinned_message : list pyval := [] in
  v <- py_getitem data "pinned_message" ;;
  pinned_message <-
    (if is_list v then
       l <- py_getitem data "pinned_message" ;;
       items <- py_iter l ;;
       comprehension
         (fun i => if is_Message i then Message_to_dict i else Ok i) items
     else Ok pinned_message) ;;
  data <- py_setitem data "id" (id self) ;;
  data <- py_setitem data "type" (type self) ;;
  data <- py_setitem data "title" (title self) ;;
  data <- py_setitem data "username" (username self) ;;
  data <- py_setitem data "first_name" (first_name self) ;;
  data <- py_setitem data "last_name" (last_name self) ;;
  data <- py_setitem data "pinned_message" (PList pinned_message) ;;
  Ok data.

End Chat.
End Balebot.

(** A client for the examples: a call returns the name of the method and the
    positional arguments it was given. *)
Definition recording_client : bot_client :=
  fun method args kwargs => Ok (PTuple (PStr method :: args)).
(** * Properties *)

(** ** Induction on Python values *)

Lemma pyval_ind (P : pyval -> Prop)
  (HMissing : P PMissing) (HNone : P PNone)
  (HBool : forall b, P (PBool b)) (HInt : forall z, P (PInt z))
  (HStr : forall s, P (PStr s)) (HDatetime : forall t, P (PDatetime t))
  (HList : forall l, Forall P l -> P (PList l))
  (HTuple : forall l, Forall P l -> P (PTuple l))
  (HDict : forall d, Forall (fun kv => P (snd kv)) d -> P (PDict d))
  (HObj : forall cls locked i slots,
      P i -> Forall (fun kv => P (snd kv)) slots -> P (PObj cls locked i slots)) :
  forall v, P v.
Proof.
  fix IH 1.
  assert (IHl : forall l, Forall P l).
  { fix IHl 1. intros [|x l]; constructor; [apply IH | apply IHl]. }
  assert (IHd : forall d : list (string * pyval), Forall (fun kv => P (snd kv)) d).
  { fix IHd 1. intros [|[k x] d]; constructor; [apply IH | apply IHd]. }
  intros [| | b | z | s | t | l | l | d | cls locked i slots].
  - exact HMissing.
  - exact HNone.
  - apply HBool.
  - apply HInt.
  - apply HStr.
  - apply HDatetime.
  - apply HList, IHl.
  - apply HTuple, IHl.
  - apply HDict, IHd.
  - apply HObj; [apply IH | apply IHd].
Qed.

(** ** Dictionaries *)

Lemma dict_get_set (k k' : string) (v : pyval) (d : dict) :
  dict_get k (dict_set k' v d) =
  if String.eqb k' k then Some v else dict_get k d.
Proof.
  induction d as [|[k0 v0] d IH]; simpl.
  - reflexivity.
  - destruct (String.eqb k0 k') eqn:E0; simpl.
    + apply String.eqb_eq in E0; subst k0.
      destruct (String.eqb k' k); reflexivity.
    + destruct (String.eqb k0 k) eqn:E1.
      * apply String.eqb_eq in E1; subst k0.
        rewrite String.eqb_sym, E0. reflexivity.
      * exact IH.
Qed.

Lemma dict_get_remove (k k' : string) (d : dict) :
  dict_get k (dict_remove k' d) =
  if String.eqb k' k then None else dict_get k d.
Proof.
  induction d as [|[k0 v0] d IH]; simpl.
  - destruct (String.eqb k' k); reflexivity.
  - destruct (String.eqb k0 k') eqn:E0; simpl.
    + apply String.eqb_eq in E0; subst k0. rewrite IH.
      destruct (String.eqb k' k); reflexivity.
    + rewrite IH. destruct (String.eqb k0 k) eqn:E1.
      * apply String.eqb_eq in E1; subst k0.
        rewrite String.eqb_sym, E0. reflexivity.
      * reflexivity.
Qed.

Lemma get_with_dict_get {A : Type} (f : pyval -> A) (k : string) (d : dict) :
  get_with f k d = option_map f (dict_get k d).
Proof.
  induction d as [|[k0 v0] d IH]; simpl.
  - reflexivity.
  - destruct (String.eqb k0 k); [reflexivity | exact IH].
Qed.

(** ** Construction *)

Ltac step_bind H :=
  match type of H with
  | bind ?m _ = Ok _ =>
      let E := fresh "E" in
      destruct m eqn:E; cbn [bind] in H; [| discriminate H]
  end.

Lemma required_Ok (kwargs : dict) (name : string) (v : pyval) :
  required kwargs name = Ok v -> dict_get name kwargs = Some v.
Proof.
  unfold BaleObject.required. destruct (dict_get name kwargs); congruence.
Qed.

(** What [Message.call] builds: a locked Message whose slots hold the
    arguments, the absent ones replaced by the sentinel. *)
Lemma Message_call_Ok (kwargs : dict) (self : pyval) :
  Message.call kwargs = Ok self ->
  exists message_id date,
    dict_get "message_id" kwargs = Some message_id /\
    dict_get "date" kwargs = Some date /\
    self =
      PObj CMessage true message_id
        [("message_id", message_id); ("date", date);
         ("text", optional kwargs "text" MissingValue);
         ("chat", optional kwargs "chat" MissingValue);
         ("reply_to_message", optional kwargs "reply_to_message" MissingValue);
         ("from_user", optional kwargs "from_user" MissingValue);
         ("forward_from", optional kwargs "forward_from" MissingValue);
         ("forward_from_message_id",
           optional kwargs "forward_from_message_id" MissingValue);
         ("forward_from_chat", optional kwargs "forward_from_chat" MissingValue);
         ("edit_date", optional kwargs "edit_date" MissingValue);
         ("caption", optional kwargs "caption" MissingValue);
         ("document", optional kwargs "document" MissingValue);
         ("video", optional kwargs "video" MissingValue);
         ("animation", optional kwargs "animation" MissingValue);
         ("audio", optional kwargs "audio" MissingValue);
         ("voice", optional kwargs "voice" MissingValue);
         ("photos", optional kwargs "photos" MissingValue);
         ("contact", optional kwargs "contact" MissingValue);
         ("location", optional kwargs "location" MissingValue);
         ("sticker", optional kwargs "sticker" MissingValue);
         ("new_chat_members", optional kwargs "new_chat_members" MissingValue);
         ("left_chat_member", optional kwargs "left_chat_member" MissingValue);
         ("invoice", optional kwargs "invoice" MissingValue);
         ("successful_payment",
           optional kwargs "successful_payment" MissingValue)].
Proof.
  unfold Message.call. intros H.
  step_bind H. step_bind H.
  apply required_Ok in E, E0.
  exists a, a0. split; [exact E|]. split; [exact E0|].
  cbn in H. congruence.
Qed.

Lemma Message_call_intro (kwargs : dict) (message_id date : pyval) :
  dict_get "message_id" kwargs = Some message_id ->
  dict_get "date" kwargs = Some date ->
  exists self, Message.call kwargs = Ok self.
Proof.
  intros Hi Hd. unfold Message.call, BaleObject.required.
  rewrite Hi, Hd. cbn. eexists. reflexivity.
Qed.

(** ** Message.attachment and Message.content *)

(** C5. For every constructed Message, [attachment] is the first present
    field among video, photos, audio, animation, voice and document, in that
    order, and [None] when none of them is present. *)
Theorem attachment_first_present (kwargs : dict) (self : pyval) :
  Message.call kwargs = Ok self ->
  exists video photos audio animation voice document,
    getattr self "video" = Ok video /\
    getattr self "photos" = Ok photos /\
    getattr self "audio" = Ok audio /\
    getattr self "animation" = Ok animation /\
    getattr self "voice" = Ok voice /\
    getattr self "document" = Ok document /\
    Message.attachment self =
      Ok (first_present [video; photos; audio; animation; voice; document]).
Proof.
  intros H. apply Message_call_Ok in H.
  destruct H as (message_id & date & _ & _ & ->).
  exists (optional kwargs "video" MissingValue),
    (optional kwargs "photos" MissingValue),
    (optional kwargs "audio" MissingValue),
    (optional kwargs "animation" MissingValue),
    (optional kwargs "voice" MissingValue),
    (optional kwargs "document" MissingValue).
  repeat (split; [reflexivity|]).
  unfold Message.attachment, first_present, present, py_or.
  cbn -[truthy BaleObject.optional].
  repeat match goal with
         | |- context [truthy ?v] =>
             let E := fresh "E" in
             destruct (truthy v) eqn:E; cbn -[truthy BaleObject.optional];
             rewrite ?E
         end;
  reflexivity.
Qed.

Lemma attachment_first_present_witness :
  exists self,
    Message.call
      [("message_id", PInt 1); ("date", PDatetime 0);
       ("photos", PList []); ("voice", PObj CVoice true PNone []);
       ("document", PObj CDocument true PNone [])] = Ok self /\
    Message.attachment self = Ok (PObj CVoice true PNone []).
Proof.
  eexists. split; [reflexivity|].
  destruct (attachment_first_present
              [("message_id", PInt 1); ("date", PDatetime 0);
               ("photos", PList []); ("voice", PObj CVoice true PNone []);
               ("document", PObj CDocument true PNone [])] _ eq_refl)
    as (v & p & a & n & o & d & Hv & Hp & Ha & Hn & Ho & Hd & H).
  cbn in Hv, Hp, Ha, Hn, Ho, Hd.
  injection Hv as <-. injection Hp as <-. injection Ha as <-.
  injection Hn as <-. injection Ho as <-. injection Hd as <-.
  exact H.
Defined.

(** What [content] computes on a constructed Message: the caption when it is
    truthy, the text otherwise. *)
Lemma content_caption_or_text (kwargs : dict) (self : pyval) :
  Message.call kwargs = Ok self ->
  Message.content self =
    Ok (if truthy (optional kwargs "caption" MissingValue)
        then optional kwargs "caption" MissingValue
        else optional kwargs "text" MissingValue).
Proof.
  intros H. apply Message_call_Ok in H.
  destruct H as (message_id & date & _ & _ & ->).
  unfold Message.content, py_or. cbn.
  destruct (truthy (optional kwargs "caption" MissingValue)); reflexivity.
Qed.

(** C6. A Message constructed without text and without caption: [content]
    returns the sentinel that both fields hold, not [None]. *)
Theorem content_without_text_or_caption :
  exists self,
    Message.call [("message_id", PInt 1); ("date", PDatetime 0)] = Ok self /\
    getattr self "caption" = Ok MissingValue /\
    getattr self "text" = Ok MissingValue /\
    Message.content self = Ok MissingValue /\
    Message.content self <> Ok PNone.
Proof.
  eexists. split; [reflexivity|].
  repeat split; discriminate.
Qed.

(** ** The error taxonomy *)

Lemma prefix_lower (p s : string) :
  String.prefix p s = true -> String.prefix (lower p) (lower s) = true.
Proof.
  revert s. induction p as [|c p IH]; intros s H.
  - destruct s; reflexivity.
  - destruct s as [|c' s]; simpl in H; [discriminate|].
    simpl. destruct (ascii_dec c c') as [->|Hne]; [|discriminate].
    destruct (ascii_dec (lower_ascii c') (lower_ascii c')); [|congruence].
    apply IH, H.
Qed.

Lemma contains_lower (needle s : string) :
  contains needle s = true -> contains (lower needle) (lower s) = true.
Proof.
  induction s as [|c s IH]; cbn [contains lower]; intros H.
  - rewrite orb_false_r in *. apply (prefix_lower needle ""), H.
  - apply orb_true_iff in H. apply orb_true_iff. destruct H as [H|H].
    + left. apply (prefix_lower needle (String c s)), H.
    + right. apply IH, H.
Qed.

(** A description that holds ["token not found"] is matched by
    [InvalidToken], whatever else it holds. *)
Lemma InvalidToken_matches (s : string) :
  contains "token not found" s = true ->
  InvalidToken.check_description (PStr s) = Ok (PBool true).
Proof.
  intros H. unfold InvalidToken.check_description, py_and.
  assert (Hs : truthy (PStr s) = true).
  { destruct s; [discriminate H | reflexivity]. }
  rewrite Hs. cbn [py_lower bind py_contains].
  apply contains_lower in H.
  change (lower "token not found") with "token not found" in H.
  rewrite H. reflexivity.
Qed.

(** C4. With the predicates tried in the order invalid-token, not-found,
    forbidden, bad-request and the generic kind last: "Forbidden: bot was
    blocked" is classified as forbidden, "Bad Request: invalid id" as
    bad-request, and every description that contains "token not found" as
    invalid-token. *)
Theorem classify_by_description :
  classify (PStr "Forbidden: bot was blocked") = Ok EForbidden /\
  classify (PStr "Bad Request: invalid id") = Ok EBadRequest /\
  (forall s : string,
      contains "token not found" s = true ->
      classify (PStr s) = Ok EInvalidToken).
Proof.
  split; [reflexivity|]. split; [reflexivity|].
  intros s H. unfold classify, priority, first_match, check_description.
  rewrite (InvalidToken_matches s H). reflexivity.
Qed.

Lemma classify_by_description_witness :
  contains "token not found" "Bad Request: token not found" = true /\
  startswith "Bad Request: token not found" "Bad Request:" = true /\
  classify (PStr "Bad Request: token not found") = Ok EInvalidToken.
Proof.
  split; [reflexivity|]. split; [reflexivity|].
  apply (proj2 (proj2 classify_by_description)). reflexivity.
Defined.

(** C10. Every class of the taxonomy answers a [None] description with a
    falsy value and does not raise; the classification of [None] then ends on
    the generic kind. *)
Theorem check_description_None :
  (forall cls : error_class,
      exists v, check_description cls PNone = Ok v /\ truthy v = false) /\
  classify PNone = Ok EAPIError.
Proof.
  split; [|reflexivity].
  intros cls. destruct cls; eexists; split; reflexivity.
Qed.

(** ** ChatMember *)

Lemma py_eq_str (v : pyval) (s : string) :
  py_eq v (PStr s) = true <-> v = PStr s.
Proof.
  destruct v; simpl; try (split; [discriminate | discriminate]).
  rewrite String.eqb_eq. split; congruence.
Qed.

(** What [ChatMember.call] builds, as far as [status] goes. *)
Lemma ChatMember_call_Ok (kwargs : dict) (self : pyval) :
  ChatMember.call kwargs = Ok self ->
  exists status user uid slots,
    dict_get "status" kwargs = Some status /\
    dict_get "user" kwargs = Some user /\
    getattr user "id" = Ok uid /\
    self = PObj CChatMember true (PTuple [uid; status])
             (("status", status) :: ("user", user) :: slots).
Proof.
  unfold ChatMember.call. intros H.
  step_bind H. step_bind H. apply required_Ok in E, E0.
  unfold ChatMember.__init__ in H. cbn in H.
  destruct (getattr a0 "id") as [uid|] eqn:Eu; cbn in H; [|discriminate H].
  exists a, a0, uid. eexists.
  split; [exact E|]. split; [exact E0|]. split; [exact Eu|].
  injection H as <-. reflexivity.
Qed.

(** C9. For every constructed ChatMember: [is_owner] holds exactly when the
    status is "creator", [is_admin] exactly when it is "creator" or
    "administrator", and an owner is an admin. *)
Theorem owner_is_admin (kwargs : dict) (self : pyval) :
  ChatMember.call kwargs = Ok self ->
  exists status,
    getattr self "status" = Ok status /\
    (ChatMember.is_owner self = Ok (PBool true) <-> status = PStr "creator") /\
    (ChatMember.is_admin self = Ok (PBool true) <->
       status = PStr "creator" \/ status = PStr "administrator") /\
    (ChatMember.is_owner self = Ok (PBool true) ->
     ChatMember.is_admin self = Ok (PBool true)).
Proof.
  intros H. apply ChatMember_call_Ok in H.
  destruct H as (status & user & uid & slots & _ & _ & _ & ->).
  exists status. split; [reflexivity|].
  assert (Ho : ChatMember.is_owner
                 (PObj CChatMember true (PTuple [uid; status])
                    (("status", status) :: ("user", user) :: slots))
               = Ok (PBool (py_eq status (PStr "creator")))) by reflexivity.
  assert (Ha : ChatMember.is_admin
                 (PObj CChatMember true (PTuple [uid; status])
                    (("status", status) :: ("user", user) :: slots))
               = Ok (PBool (py_eq status (PStr "creator")
                            || py_eq status (PStr "administrator"))))
    by (cbn; rewrite orb_false_r; reflexivity).
  rewrite Ho, Ha.
  assert (Hb : forall b : bool, Ok (PBool b) = Ok (PBool true) <-> b = true)
    by (intros b; split; [intros [= ->]; reflexivity | intros ->; reflexivity]).
  rewrite !Hb, orb_true_iff, !py_eq_str.
  split; [reflexivity|]. split; [reflexivity|]. intros ->. left. reflexivity.
Qed.

Lemma owner_is_admin_witness :
  exists self,
    ChatMember.call
      [("status", PStr "creator");
       ("user", PObj CUser true PNone [("id", PInt 7)])] = Ok self /\
    ChatMember.is_owner self = Ok (PBool true) /\
    ChatMember.is_admin self = Ok (PBool true).
Proof.
  eexists. split; [reflexivity|]. split; [reflexivity|].
  destruct (owner_is_admin
              [("status", PStr "creator");
               ("user", PObj CUser true PNone [("id", PInt 7)])] _ eq_refl)
    as (status & _ & _ & _ & H).
  apply H. reflexivity.
Defined.

(** ** The lock *)

Ltac run_constructor H :=
  repeat step_bind H; cbn in H;
  repeat match type of H with
         | context [getattr ?o ?k] =>
             let E := fresh "E" in
             destruct (getattr o k) eqn:E; cbn in H; [| discriminate H]
         end;
  injection H as <-.

(** C7. Whatever the class and the arguments, the instance that a
    constructor returns is locked: a write to any attribute raises, so the
    instance stays as it is. *)
Theorem locked_after_construction
  (cls : class) (kwargs : dict) (self : pyval) :
  constructor cls kwargs = Ok self ->
  BaleObject.is_locked self = true /\
  forall (key : string) (value : pyval),
    setattr self key value = Raise AttributeError.
Proof.
  intros H.
  destruct cls; cbn [constructor] in H;
    unfold Chat.call, ChatMember.call, Message.call, Contact.call, Video.call,
      BaleObject.opaque in H;
    run_constructor H; split; reflexivity.
Qed.

Lemma locked_after_construction_witness :
  exists self,
    constructor CChat [("chat_id", PInt 5); ("chat_type", PStr "group")]
      = Ok self /\
    getattr self "title" = Ok MissingValue /\
    setattr self "title" (PStr "renamed") = Raise AttributeError.
Proof.
  eexists. split; [reflexivity|]. split; [reflexivity|].
  apply (locked_after_construction CChat
           [("chat_id", PInt 5); ("chat_type", PStr "group")] _ eq_refl).
Defined.

(** ** Equality of values *)

Lemma forall2b_refl (l : list pyval) :
  Forall (fun v => py_eq v v = true) l -> forall2b py_eq l l = true.
Proof.
  induction 1 as [|v l Hv _ IH]; simpl.
  - reflexivity.
  - rewrite Hv, IH. reflexivity.
Qed.

Lemma distinct_app_head (l1 l2 : list string) (k : string) :
  distinct (l1 ++ k :: l2)%list = true -> existsb (String.eqb k) l1 = false.
Proof.
  induction l1 as [|x l1 IH]; simpl; intros H.
  - reflexivity.
  - apply andb_true_iff in H. destruct H as [Hx Hd].
    rewrite (IH Hd), orb_false_r.
    apply negb_true_iff in Hx. rewrite existsb_app in Hx.
    apply orb_false_iff in Hx. destruct Hx as [_ Hx]. simpl in Hx.
    apply orb_false_iff in Hx. destruct Hx as [Hx _].
    rewrite String.eqb_sym. exact Hx.
Qed.

Lemma dict_get_app_fresh (k : string) (pre suf : dict) :
  existsb (String.eqb k) (map fst pre) = false ->
  dict_get k (pre ++ suf)%list = dict_get k suf.
Proof.
  induction pre as [|[k0 v0] pre IH]; simpl; intros H.
  - reflexivity.
  - apply orb_false_iff in H. destruct H as [H0 H].
    rewrite String.eqb_sym, H0. apply IH, H.
Qed.

Lemma entries_in_refl (suf pre : dict) :
  distinct (map fst (pre ++ suf)%list) = true ->
  Forall (fun kv => py_eq (snd kv) (snd kv) = true) suf ->
  entries_in py_eq (pre ++ suf)%list suf = true.
Proof.
  revert pre. induction suf as [|[k u] suf IH]; intros pre Hd Hs; simpl.
  - reflexivity.
  - inversion Hs as [|? ? Hu Hs']; subst. simpl in Hu.
    rewrite dict_get_app_fresh.
    + simpl. rewrite String.eqb_refl, Hu. simpl.
      specialize (IH (pre ++ [(k, u)])%list).
      rewrite <- app_assoc in IH. apply IH; assumption.
    + rewrite map_app in Hd. simpl in Hd.
      apply distinct_app_head in Hd. exact Hd.
Qed.

(** [==] is reflexive on the values of a payload. *)
Lemma py_eq_refl (v : pyval) : is_json v = true -> py_eq v v = true.
Proof.
  induction v as [| | b | z | s | t | l IH | l IH | d IH | cls locked i slots _ _]
    using pyval_ind; simpl; intros H; try discriminate H.
  - reflexivity.
  - apply Bool.eqb_reflx.
  - apply Z.eqb_refl.
  - apply String.eqb_refl.
  - apply forall2b_refl. rewrite forallb_forall in H.
    rewrite Forall_forall in *. intros x Hx. apply IH; [exact Hx | apply H, Hx].
  - apply andb_true_iff in H. destruct H as [Hd Hj].
    rewrite Nat.eqb_refl. simpl.
    apply (entries_in_refl d []); [exact Hd|].
    rewrite forallb_forall in Hj.
    rewrite Forall_forall in *. intros x Hx. apply IH; [exact Hx | apply Hj, Hx].
Qed.

(** ** Chat *)

Ltac dict_simpl :=
  unfold BaleObject.optional, dict_get_default;
  repeat (rewrite dict_get_set || rewrite dict_get_remove);
  cbn [String.eqb Ascii.eqb Bool.eqb].

Lemma dict_get_nonempty (k : string) (d : dict) (v : pyval) :
  dict_get k d = Some v -> truthy (PDict d) = true.
Proof. destruct d; [discriminate | reflexivity]. Qed.

(** What [Chat.from_dict] builds from a non-empty payload. *)
Lemma Chat_from_dict_Ok (payload : dict) (self : pyval) :
  payload <> [] ->
  Chat.from_dict (PDict payload) = Ok self ->
  exists chat_id chat_type photo,
    dict_get "id" payload = Some chat_id /\
    dict_get "type" payload = Some chat_type /\
    ChatPhoto.from_dict (dict_get_default payload "photo" PNone) = Ok photo /\
    self =
      PObj CChat true chat_id
        [("id", chat_id); ("type", chat_type);
         ("title", optional payload "title" MissingValue);
         ("username", optional payload "username" MissingValue);
         ("first_name", optional payload "first_name" MissingValue);
         ("last_name", optional payload "last_name" MissingValue);
         ("photo", photo);
         ("invite_link", optional payload "invite_link" MissingValue)].
Proof.
  intros Hne H. unfold Chat.from_dict, BaleObject.parse_data in H.
  assert (Ht : truthy (PDict payload) = true)
    by (destruct payload; [contradiction | reflexivity]).
  rewrite Ht in H. cbn [negb] in H. rewrite Ht in H. cbn [negb py_pop] in H.
  destruct (dict_get "id" payload) as [chat_id|] eqn:Ei;
    cbn [bind py_setitem py_pop] in H; [|discriminate H].
  rewrite dict_get_set, dict_get_remove in H. cbn in H.
  destruct (dict_get "type" payload) as [chat_type|] eqn:Et;
    cbn [bind py_setitem py_get] in H; [|discriminate H].
  unfold dict_get_default in H.
  repeat (rewrite dict_get_set in H || rewrite dict_get_remove in H).
  cbn [String.eqb Ascii.eqb Bool.eqb] in H.
  step_bind H. cbn [py_setitem bind] in H.
  unfold BaleObject.from_dict, BaleObject.parse_data in H.
  match type of H with
  | context [truthy (PDict ?d)] =>
      assert (Hd : truthy (PDict d) = true)
        by (apply (dict_get_nonempty "photo" d a), dict_get_set)
  end.
  rewrite Hd in H. cbn [negb] in H. rewrite Hd in H. cbn [negb] in H.
  unfold Chat.call, BaleObject.required in H.
  unfold BaleObject.optional, dict_get_default in H.
  repeat (rewrite dict_get_set in H || rewrite dict_get_remove in H).
  cbn in H.
  exists chat_id, chat_type, a.
  split; [reflexivity|]. split; [reflexivity|]. split; [exact E|].
  injection H as <-. reflexivity.
Qed.

(** C8. Two Chats decoded from payloads that carry the same [id] are equal
    and have the same hash, whatever their other fields. *)
Theorem chat_identity_by_id
  (hash : pyval -> result Z) (p1 p2 : dict) (i c1 c2 : pyval) :
  is_json i = true ->
  dict_get "id" p1 = Some i ->
  dict_get "id" p2 = Some i ->
  Chat.from_dict (PDict p1) = Ok c1 ->
  Chat.from_dict (PDict p2) = Ok c2 ->
  BaleObject.__eq__ c1 c2 = true /\
  BaleObject.__hash__ hash c1 = BaleObject.__hash__ hash c2.
Proof.
  intros Hj H1 H2 F1 F2.
  apply Chat_from_dict_Ok in F1; [|intros ->; discriminate H1].
  apply Chat_from_dict_Ok in F2; [|intros ->; discriminate H2].
  destruct F1 as (i1 & t1 & ph1 & Hi1 & _ & _ & ->).
  destruct F2 as (i2 & t2 & ph2 & Hi2 & _ & _ & ->).
  rewrite H1 in Hi1. rewrite H2 in Hi2.
  injection Hi1 as <-. injection Hi2 as <-.
  split; [|reflexivity].
  cbn [BaleObject.__eq__ py_eq class_eqb andb]. apply py_eq_refl, Hj.
Qed.

Lemma chat_identity_by_id_witness :
  exists c1 c2,
    Chat.from_dict
      (PDict [("id", PInt 42); ("type", PStr "group"); ("title", PStr "a")])
      = Ok c1 /\
    Chat.from_dict
      (PDict [("id", PInt 42); ("type", PStr "private");
              ("first_name", PStr "b")]) = Ok c2 /\
    getattr c1 "type" <> getattr c2 "type" /\
    BaleObject.__eq__ c1 c2 = true /\
    BaleObject.__hash__ (fun v => match v with PInt z => Ok z | _ => Raise TypeError end) c1 =
    BaleObject.__hash__ (fun v => match v with PInt z => Ok z | _ => Raise TypeError end) c2.
Proof.
  eexists. eexists.
  split; [reflexivity|]. split; [reflexivity|]. split; [discriminate|].
  apply (chat_identity_by_id _
           [("id", PInt 42); ("type", PStr "group"); ("title", PStr "a")]
           [("id", PInt 42); ("type", PStr "private"); ("first_name", PStr "b")]
           (PInt 42)); reflexivity.
Defined.

(** ** Message.from_dict *)

Lemma assign_get_inv (f : pyval -> result pyval) (dst src : string)
  (default data data' : pyval) :
  Message.assign_get f dst src default data = Ok data' ->
  exists d x,
    data = PDict d /\ f (dict_get_default d src default) = Ok x /\
    data' = PDict (dict_set dst x d).
Proof.
  unfold Message.assign_get. intros H.
  destruct data; try discriminate H. cbn [py_get bind] in H.
  step_bind H. cbn [py_setitem] in H. injection H as <-.
  eexists. eexists. split; [reflexivity|]. split; [exact E | reflexivity].
Qed.

Lemma assign_pop_inv (f : pyval -> result pyval) (dst src : string)
  (default data data' : pyval) :
  Message.assign_pop f dst src default data = Ok data' ->
  exists d x,
    data = PDict d /\ f (dict_get_default d src default) = Ok x /\
    data' = PDict (dict_set dst x (dict_remove src d)).
Proof.
  unfold Message.assign_pop. intros H.
  destruct data; try discriminate H. cbn [py_pop_default bind] in H.
  step_bind H. cbn [py_setitem] in H. injection H as <-.
  eexists. eexists. split; [reflexivity|]. split; [exact E | reflexivity].
Qed.

Lemma assign_get_Ok (f : pyval -> result pyval) (dst src : string)
  (default x : pyval) (d : dict) :
  f (dict_get_default d src default) = Ok x ->
  Message.assign_get f dst src default (PDict d) = Ok (PDict (dict_set dst x d)).
Proof.
  intros H. unfold Message.assign_get. cbn [py_get bind]. rewrite H.
  reflexivity.
Qed.

Lemma assign_pop_Ok (f : pyval -> result pyval) (dst src : string)
  (default x : pyval) (d : dict) :
  f (dict_get_default d src default) = Ok x ->
  Message.assign_pop f dst src default (PDict d)
  = Ok (PDict (dict_set dst x (dict_remove src d))).
Proof.
  intros H. unfold Message.assign_pop. cbn [py_pop_default bind]. rewrite H.
  reflexivity.
Qed.

(** Inversion of one assignment of the decoder, in a hypothesis [H]. *)
Ltac invert_assign H :=
  let d := fresh "d" in
  let x := fresh "x" in
  let Hd := fresh "Hd" in
  let Hx := fresh "Hx" in
  first
    [ apply assign_get_inv in H; destruct H as (d & x & Hd & Hx & H)
    | apply assign_pop_inv in H; destruct H as (d & x & Hd & Hx & H) ];
  injection Hd as <-;
  unfold dict_get_default in Hx;
  repeat (rewrite dict_get_set in Hx || rewrite dict_get_remove in Hx);
  cbn [String.eqb Ascii.eqb Bool.eqb] in Hx;
  fold (dict_get_default) in Hx.

Ltac invert_step H :=
  match type of H with
  | bind ?m _ = Ok _ =>
      let E := fresh "E" in
      destruct m eqn:E; cbn [bind] in H; [| discriminate H];
      invert_assign E; subst
  end.

Section MessageDecoding.

Variable parse_time : pyval -> result pyval.

Lemma decode_head_inv (d : dict) (data' : pyval) :
  Message.decode_head parse_time (PDict d) = Ok data' ->
  exists date from_user chat forward_from forward_from_chat,
    parse_time (dict_get_default d "date" PNone) = Ok date /\
    User.from_dict (dict_get_default d "from" PNone) = Ok from_user /\
    Chat.from_dict (dict_get_default d "chat" PNone) = Ok chat /\
    User.from_dict (dict_get_default d "forward_from" PNone)
      = Ok forward_from /\
    Chat.from_dict (dict_get_default d "forward_from_chat" PNone)
      = Ok forward_from_chat /\
    data' =
      PDict
        (dict_set "forward_from_chat" forward_from_chat
           (dict_set "forward_from" forward_from
              (dict_set "chat" chat
                 (dict_set "from_user" from_user
                    (dict_remove "from" (dict_set "date" date d)))))).
Proof.
  unfold Message.decode_head. intros H.
  invert_step H. invert_step H. invert_step H. invert_step H.
  invert_assign H.
  repeat eexists; eassumption.
Qed.

(** The body of [from_dict] calls [self_from_dict] on the value under
    ["reply_to_message"] only. *)
Lemma from_dict_body_ext (g1 g2 : pyval -> result pyval) (d : dict) :
  g1 (dict_get_default d "reply_to_message" PNone)
  = g2 (dict_get_default d "reply_to_message" PNone) ->
  Message.from_dict_body parse_time g1 (PDict d)
  = Message.from_dict_body parse_time g2 (PDict d).
Proof.
  intros Hg. unfold Message.from_dict_body, BaleObject.parse_data.
  destruct (truthy (PDict d)) eqn:Ht; cbn [negb]; rewrite ?Ht; cbn [negb];
    [|reflexivity].
  destruct (Message.decode_head parse_time (PDict d)) as [data'|e] eqn:E;
    cbn [bind]; [|reflexivity].
  apply decode_head_inv in E.
  destruct E as (x1 & x2 & x3 & x4 & x5 & _ & _ & _ & _ & _ & ->).
  unfold Message.assign_get. cbn [py_get bind].
  dict_simpl. fold (dict_get_default d "reply_to_message" PNone).
  rewrite Hg. reflexivity.
Qed.

Lemma from_dict_body_nondict (g1 g2 : pyval -> result pyval) (v : pyval) :
  match v with PDict _ => False | _ => True end ->
  Message.from_dict_body parse_time g1 v
  = Message.from_dict_body parse_time g2 v.
Proof.
  intros Hv. unfold Message.from_dict_body, BaleObject.parse_data.
  cbv zeta.
  destruct (truthy v) eqn:Ht; cbn [negb]; rewrite ?Ht; cbn [negb];
    [|reflexivity].
  destruct v; try reflexivity. contradiction.
Qed.

(** The equation of [from_dict]: its body, with itself for the call of
    line 202. *)
Lemma from_dict_eq (data : pyval) :
  Message.from_dict parse_time data
  = Message.from_dict_body parse_time (Message.from_dict parse_time) data.
Proof.
  destruct data as [| | b | z | s | t | l | l | d | cls locked i slots];
    cbn [Message.from_dict];
    try (apply from_dict_body_nondict; exact I).
  apply from_dict_body_ext.
  rewrite get_with_dict_get. unfold dict_get_default.
  destruct (dict_get "reply_to_message" d); reflexivity.
Qed.

Lemma truthy_dict_set (k : string) (v : pyval) (d : dict) :
  truthy (PDict (dict_set k v d)) = true.
Proof.
  destruct d as [|[k0 v0] d]; simpl; [reflexivity|].
  destruct (String.eqb k0 k); reflexivity.
Qed.

(** [from_dict] on a non-empty payload returns what [decodes]
    describes. *)
Lemma from_dict_decodes (d : dict) (self : pyval) :
  d <> [] ->
  Message.from_dict parse_time (PDict d) = Ok self ->
  decodes parse_time d self.
Proof.
  intros Hne H. rewrite from_dict_eq in H.
  unfold Message.from_dict_body, BaleObject.parse_data in H.
  assert (Ht : truthy (PDict d) = true)
    by (destruct d; [contradiction | reflexivity]).
  cbv zeta in H. rewrite Ht in H. cbn [negb] in H. rewrite Ht in H.
  cbn [negb] in H.
  destruct (Message.decode_head parse_time (PDict d)) as [data1|] eqn:E1;
    cbn [bind] in H; [|discriminate H].
  apply decode_head_inv in E1.
  destruct E1 as (date & from_user & chat & forward_from & forward_from_chat
                  & Hdate & Hfrom & Hchat & Hff & Hffc & ->).
  invert_step H.
  destruct (Message.decode_tail parse_time _) as [data2|] eqn:E2;
    cbn [bind] in H; [|discriminate H].
  unfold Message.decode_tail in E2.
  do 12 invert_step E2. invert_assign E2. subst data2.
  unfold BaleObject.from_dict, BaleObject.parse_data in H.
  cbv zeta in H. rewrite truthy_dict_set in H. cbn [negb] in H.
  rewrite truthy_dict_set in H. cbn [negb] in H.
  apply Message_call_Ok in H.
  destruct H as (message_id & date' & Hid & Hd' & ->).
  repeat (rewrite dict_get_set in Hid || rewrite dict_get_remove in Hid).
  cbn [String.eqb Ascii.eqb Bool.eqb] in Hid.
  repeat (rewrite dict_get_set in Hd' || rewrite dict_get_remove in Hd').
  cbn [String.eqb Ascii.eqb Bool.eqb] in Hd'.
  injection Hd' as <-.
  unfold decodes.
  exists message_id, date, from_user, chat, forward_from, forward_from_chat.
  do 14 eexists.
  repeat (split; [eassumption|]).
  f_equal.
  repeat match goal with
         | |- (_, _) :: _ = (_, _) :: _ =>
             apply f_equal2;
             [apply f_equal; try reflexivity; dict_simpl; reflexivity|]
         end.
  reflexivity.
Qed.

(** Conversely, when every decoder returns, [from_dict] returns the
    Message that [decodes] describes. *)
Lemma decodes_from_dict (d : dict) (self : pyval) :
  d <> [] ->
  decodes parse_time d self ->
  Message.from_dict parse_time (PDict d) = Ok self.
Proof.
  intros Hne H. unfold decodes in H.
  destruct H as (message_id & date & from_user & chat & forward_from
                 & forward_from_chat & reply_to_message & edit_date & photos
                 & document & audio & voice & location & contact & animation
                 & successful_payment & sticker & invoice & new_chat_members
                 & left_chat_member
                 & Hid & H1 & H2 & H3 & H4 & H5 & H6 & H7 & H8 & H9 & H10
                 & H11 & H12 & H13 & H14 & H15 & H16 & H17 & H18 & H19 & ->).
  destruct (Message.from_dict parse_time (PDict d)) as [self|e] eqn:E.
  - apply from_dict_decodes in E; [|exact Hne].
    unfold decodes in E.
    destruct E as (message_id' & date' & from_user' & chat' & forward_from'
                   & forward_from_chat' & reply_to_message' & edit_date'
                   & photos' & document' & audio' & voice' & location'
                   & contact' & animation' & successful_payment' & sticker'
                   & invoice' & new_chat_members' & left_chat_member'
                   & Hid' & G1 & G2 & G3 & G4 & G5 & G6 & G7 & G8 & G9 & G10
                   & G11 & G12 & G13 & G14 & G15 & G16 & G17 & G18 & G19
                   & ->).
    congruence.
  - exfalso. rewrite from_dict_eq in E.
    unfold Message.from_dict_body, BaleObject.parse_data in E.
    assert (Ht : truthy (PDict d) = true)
      by (destruct d; [contradiction | reflexivity]).
    cbv zeta in E. rewrite Ht in E. cbn [negb] in E. rewrite Ht in E.
    cbn [negb] in E.
    unfold Message.decode_head, Message.decode_tail in E.
    repeat
      (match type of E with
       | context [Message.assign_get ?f ?dst ?src ?dflt (PDict ?d0)] =>
           erewrite (assign_get_Ok f dst src dflt _ d0) in E;
           [cbn [bind] in E | dict_simpl; eassumption]
       | context [Message.assign_pop ?f ?dst ?src ?dflt (PDict ?d0)] =>
           erewrite (assign_pop_Ok f dst src dflt _ d0) in E;
           [cbn [bind] in E | dict_simpl; eassumption]
       end).
    unfold BaleObject.from_dict, BaleObject.parse_data in E.
    cbv zeta in E. rewrite truthy_dict_set in E. cbn [negb] in E.
    rewrite truthy_dict_set in E. cbn [negb] in E.
    match type of E with
    | Message.call ?kw = _ =>
        destruct (Message_call_intro kw message_id date) as [self Hs];
        [dict_simpl; exact Hid | dict_simpl; reflexivity | congruence]
    end.
Qed.

Lemma from_dict_falsy (v : pyval) :
  truthy v = false -> Message.from_dict parse_time v = Ok PNone.
Proof.
  intros Hv. rewrite from_dict_eq.
  unfold Message.from_dict_body, BaleObject.parse_data.
  cbv zeta. rewrite Hv. reflexivity.
Qed.

Lemma from_dict_truthy_dict (v self : pyval) :
  truthy v = true ->
  Message.from_dict parse_time v = Ok self ->
  exists d, v = PDict d /\ d <> [].
Proof.
  intros Hv H. destruct v; try discriminate Hv;
    try (rewrite from_dict_eq in H;
         unfold Message.from_dict_body, BaleObject.parse_data in H;
         cbv zeta in H; rewrite Hv in H; cbn [negb] in H; rewrite Hv in H;
         discriminate H).
  exists d. split; [reflexivity|]. intros ->. discriminate Hv.
Qed.

Lemma dict_get_In (k : string) (d : dict) (v : pyval) :
  dict_get k d = Some v -> exists k', In (k', v) d.
Proof.
  induction d as [|[k0 v0] d IH]; simpl; intros H; [discriminate H|].
  destruct (String.eqb k0 k).
  - injection H as ->. exists k0. left. reflexivity.
  - destruct (IH H) as [k' Hk']. exists k'. right. exact Hk'.
Qed.

Lemma reply_chain_nondict (v self : pyval) :
  match v with PDict _ => False | _ => True end ->
  Message.from_dict parse_time v = Ok self ->
  Message.reply_chain self = Message.payload_chain v.
Proof.
  intros Hv H. destruct (truthy v) eqn:Ht.
  - destruct (from_dict_truthy_dict v self Ht H) as (d & -> & _).
    contradiction.
  - rewrite (from_dict_falsy v Ht) in H. injection H as <-.
    destruct v; cbn [Message.payload_chain Message.reply_chain];
      rewrite ?Ht; reflexivity.
Qed.

(** The chain of parsed replies is as long as the chain of payloads. *)
Lemma reply_chain_from_dict (data : pyval) :
  forall self,
    Message.from_dict parse_time data = Ok self ->
    Message.reply_chain self = Message.payload_chain data.
Proof.
  induction data as [| | b | z | s | t | l IH | l IH | d IH
                     | cls locked i slots _ _] using pyval_ind;
    intros self H;
    try (apply reply_chain_nondict; [exact I | exact H]).
  destruct d as [|kv d].
    + rewrite (from_dict_falsy (PDict []) eq_refl) in H. injection H as <-.
      reflexivity.
    + apply from_dict_decodes in H; [|discriminate].
      unfold decodes in H.
      destruct H as (message_id & date & from_user & chat & forward_from
                     & forward_from_chat & reply_to_message & edit_date
                     & photos & document & audio & voice & location
                     & contact & animation & successful_payment & sticker
                     & invoice & new_chat_members & left_chat_member
                     & _ & _ & _ & _ & _ & _ & Hr & _ & _ & _ & _ & _ & _
                     & _ & _ & _ & _ & _ & _ & _ & ->).
      cbn [Message.reply_chain get_with String.eqb Ascii.eqb Bool.eqb].
      cbn [Message.payload_chain truthy].
      rewrite get_with_dict_get. unfold dict_get_default in Hr.
      destruct (dict_get "reply_to_message" (kv :: d)) as [r|] eqn:Er;
        cbn [option_map].
      * destruct (dict_get_In _ _ _ Er) as [k' Hin].
        rewrite Forall_forall in IH.
        rewrite (IH (k', r) Hin _ Hr). reflexivity.
      * rewrite (from_dict_falsy PNone eq_refl) in Hr. injection Hr as <-.
        reflexivity.
Qed.

End MessageDecoding.


(** ** The decoders of the nested payloads return *)

Lemma BaleObject_from_dict_falsy (call : dict -> result pyval) (v : pyval) :
  truthy v = false -> BaleObject.from_dict call v = Ok PNone.
Proof.
  intros Hv. unfold BaleObject.from_dict, BaleObject.parse_data.
  rewrite Hv. reflexivity.
Qed.

Lemma BaleObject_from_dict_dict (call : dict -> result pyval) (d : dict) :
  d <> [] -> BaleObject.from_dict call (PDict d) = call d.
Proof.
  intros Hd. unfold BaleObject.from_dict, BaleObject.parse_data.
  destruct d; [contradiction | reflexivity].
Qed.

Lemma opaque_from_dict_total (cls : class) (v : pyval) :
  entity_payload v = true ->
  exists x, BaleObject.from_dict (BaleObject.opaque cls) v = Ok x.
Proof.
  unfold entity_payload. intros H.
  destruct (truthy v) eqn:Hv.
  - destruct v; try discriminate H.
    rewrite BaleObject_from_dict_dict by (intros ->; discriminate Hv).
    eexists. reflexivity.
  - exists PNone. apply BaleObject_from_dict_falsy, Hv.
Qed.

Lemma has_key_get (k : string) (d : dict) :
  has_key k d = true -> exists v, dict_get k d = Some v.
Proof.
  unfold has_key. destruct (dict_get k d) as [v|]; [|discriminate].
  exists v. reflexivity.
Qed.

Lemma Chat_from_dict_total (v : pyval) :
  chat_payload v = true -> exists x, Chat.from_dict v = Ok x.
Proof.
  unfold chat_payload. intros H.
  destruct (truthy v) eqn:Hv.
  - destruct v; try discriminate H. cbn [negb orb] in H.
    apply andb_true_iff in H. destruct H as [H Hp].
    apply andb_true_iff in H. destruct H as [Hi Ht].
    apply has_key_get in Hi, Ht.
    destruct Hi as [i Hi]. destruct Ht as [t Ht].
    destruct (opaque_from_dict_total CChatPhoto _ Hp) as [photo Hphoto].
    unfold Chat.from_dict, BaleObject.parse_data.
    rewrite Hv. cbn [negb]. rewrite Hv. cbn [negb py_pop].
    rewrite Hi. cbn [bind py_setitem py_pop].
    rewrite dict_get_set, dict_get_remove. cbn [String.eqb Ascii.eqb Bool.eqb].
    rewrite Ht. cbn [bind py_setitem py_get].
    unfold dict_get_default at 1.
    repeat (rewrite dict_get_set || rewrite dict_get_remove).
    cbn [String.eqb Ascii.eqb Bool.eqb].
    fold (dict_get_default d "photo" PNone).
    unfold ChatPhoto.from_dict. rewrite Hphoto. cbn [bind].
    rewrite BaleObject_from_dict_dict
      by (intros E; apply (f_equal (fun x => truthy (PDict x))) in E;
          rewrite truthy_dict_set in E; discriminate E).
    unfold Chat.call, BaleObject.required.
    repeat (rewrite dict_get_set || rewrite dict_get_remove).
    cbn. eexists. reflexivity.
  - exists PNone. unfold Chat.from_dict, BaleObject.parse_data.
    rewrite Hv. reflexivity.
Qed.

Lemma Contact_from_dict_total (v : pyval) :
  contact_payload v = true -> exists x, Contact.from_dict v = Ok x.
Proof.
  unfold contact_payload, Contact.from_dict. intros H.
  destruct (truthy v) eqn:Hv.
  - destruct v; try discriminate H. cbn [negb orb] in H.
    apply andb_true_iff in H. destruct H as [Hp Hf].
    apply has_key_get in Hp, Hf.
    destruct Hp as [p Hp]. destruct Hf as [f Hf].
    rewrite BaleObject_from_dict_dict by (intros ->; discriminate Hv).
    unfold Contact.call, BaleObject.required. rewrite Hp, Hf.
    cbn. eexists. reflexivity.
  - exists PNone. apply BaleObject_from_dict_falsy, Hv.
Qed.

Lemma comprehension_total (f : pyval -> result pyval) (l : list pyval) :
  (forall x, In x l -> exists y, f x = Ok y) ->
  exists ys, comprehension f l = Ok ys /\ (l = [] -> ys = []).
Proof.
  induction l as [|x l IH]; intros H; simpl.
  - exists []. split; reflexivity.
  - destruct (H x (or_introl eq_refl)) as [y Hy]. rewrite Hy. cbn [bind].
    destruct IH as (ys & Hys & _).
    { intros x' Hx'. apply H. right. exact Hx'. }
    rewrite Hys. cbn [bind]. exists (y :: ys).
    split; [reflexivity | discriminate].
Qed.

Lemma decode_list_total (cls : class) (v : pyval) :
  entity_list_payload v = true ->
  exists ys,
    Message.decode_list (BaleObject.from_dict (BaleObject.opaque cls)) v
    = Ok (PList ys) /\
    (py_iter v = Ok [] -> ys = []).
Proof.
  unfold entity_list_payload, Message.decode_list. intros H.
  destruct (py_iter v) as [l|] eqn:El; [|discriminate H]. cbn [bind].
  rewrite forallb_forall in H.
  destruct (comprehension_total
              (BaleObject.from_dict (BaleObject.opaque cls)) l)
    as (ys & Hys & Hnil).
  { intros x Hx. apply opaque_from_dict_total, H, Hx. }
  rewrite Hys. cbn [bind]. exists ys. split; [reflexivity|].
  intros [= ->]. apply Hnil. reflexivity.
Qed.

Lemma decode_list_or_None_total (cls : class) (v : pyval) :
  entity_list_payload v = true ->
  exists x,
    Message.decode_list_or_None
      (BaleObject.from_dict (BaleObject.opaque cls)) v = Ok x /\
    (py_iter v = Ok [] -> x = PNone).
Proof.
  intros H. unfold Message.decode_list_or_None.
  destruct (decode_list_total cls v H) as (ys & Hys & Hnil).
  rewrite Hys. cbn [bind]. unfold py_or.
  destruct ys as [|y ys]; cbn [truthy].
  - exists PNone. split; reflexivity.
  - exists (PList (y :: ys)). split; [reflexivity|].
    intros E. discriminate (Hnil E).
Qed.


(** ** Message.from_dict returns on the payloads it accepts *)

Section MessageTotality.

Variable parse_time : pyval -> result pyval.

Lemma is_Ok_inv {A : Type} (r : result A) :
  is_Ok r = true -> exists a, r = Ok a.
Proof. destruct r as [a|]; [exists a; reflexivity | discriminate]. Qed.

(** On an accepted payload every decoder returns, and [from_dict] returns
    the Message that [decodes] describes. *)
Lemma from_dict_total (data : pyval) :
  message_payload parse_time data = true ->
  exists d self,
    data = PDict d /\ d <> [] /\
    Message.from_dict parse_time data = Ok self /\
    decodes parse_time d self.
Proof.
  induction data as [| | b | z | s | t | l IH | l IH | d IH
                     | cls locked i slots _ _] using pyval_ind;
    intros H; try discriminate H.
  cbn [message_payload] in H.
  repeat (apply andb_true_iff in H; let H' := fresh "H" in destruct H as [H H']).
  rename H into Ht.
  assert (Hne : d <> []) by (intros ->; discriminate Ht).
  match goal with
  | Hr : match get_with _ _ _ with Some _ => _ | None => _ end = true |- _ =>
      rename Hr into Hreply
  end.
  assert (Hr : exists r,
             Message.from_dict parse_time
               (dict_get_default d "reply_to_message" PNone) = Ok r).
  { rewrite get_with_dict_get in Hreply. unfold dict_get_default.
    destruct (dict_get "reply_to_message" d) as [r|] eqn:Er;
      cbn [option_map] in Hreply.
    - destruct (truthy r) eqn:Htr; cbn [negb orb] in Hreply.
      + destruct (dict_get_In _ _ _ Er) as [k' Hin].
        rewrite Forall_forall in IH.
        destruct (IH (k', r) Hin Hreply) as (d' & self' & _ & _ & Hs & _).
        exists self'. exact Hs.
      + exists PNone. apply from_dict_falsy, Htr.
    - exists PNone. apply from_dict_falsy. reflexivity. }
  destruct Hr as [reply Hr].
  repeat match goal with
         | Hk : has_key _ _ = true |- _ =>
             apply has_key_get in Hk; destruct Hk as [? ?]
         | Hk : is_Ok _ = true |- _ =>
             apply is_Ok_inv in Hk; destruct Hk as [? ?]
         | Hk : chat_payload _ = true |- _ =>
             apply Chat_from_dict_total in Hk; destruct Hk as [? ?]
         | Hk : contact_payload _ = true |- _ =>
             apply Contact_from_dict_total in Hk; destruct Hk as [? ?]
         | Hk : forallb _ entity_keys = true |- _ =>
             cbn [forallb entity_keys] in Hk;
             repeat (apply andb_true_iff in Hk;
                     let Hk' := fresh "Hk" in destruct Hk as [Hk' Hk]);
             clear Hk
         end.
  repeat match goal with
         | Hk : entity_payload (dict_get_default d "from" PNone) = true |- _ =>
             apply (opaque_from_dict_total CUser) in Hk; destruct Hk as [? ?]
         | Hk : entity_payload (dict_get_default d "forward_from" PNone) = true
           |- _ =>
             apply (opaque_from_dict_total CUser) in Hk; destruct Hk as [? ?]
         | Hk : entity_payload (dict_get_default d "left_chat_member" PNone)
                = true |- _ =>
             apply (opaque_from_dict_total CUser) in Hk; destruct Hk as [? ?]
         | Hk : entity_payload (dict_get_default d "document" PNone) = true
           |- _ =>
             apply (opaque_from_dict_total CDocument) in Hk;
             destruct Hk as [? ?]
         | Hk : entity_payload (dict_get_default d "audio" PNone) = true |- _ =>
             apply (opaque_from_dict_total CAudio) in Hk; destruct Hk as [? ?]
         | Hk : entity_payload (dict_get_default d "voice" PNone) = true |- _ =>
             apply (opaque_from_dict_total CVoice) in Hk; destruct Hk as [? ?]
         | Hk : entity_payload (dict_get_default d "location" PNone) = true
           |- _ =>
             apply (opaque_from_dict_total CLocation) in Hk;
             destruct Hk as [? ?]
         | Hk : entity_payload (dict_get_default d "animation" PNone) = true
           |- _ =>
             apply (opaque_from_dict_total CAnimation) in Hk;
             destruct Hk as [? ?]
         | Hk : entity_payload
                  (dict_get_default d "successful_payment" PNone) = true
           |- _ =>
             apply (opaque_from_dict_total CSuccessfulPayment) in Hk;
             destruct Hk as [? ?]
         | Hk : entity_payload (dict_get_default d "sticker" PNone) = true
           |- _ =>
             apply (opaque_from_dict_total CSticker) in Hk;
             destruct Hk as [? ?]
         | Hk : entity_payload (dict_get_default d "invoice" PNone) = true
           |- _ =>
             apply (opaque_from_dict_total CInvoice) in Hk;
             destruct Hk as [? ?]
         | Hk : entity_list_payload (dict_get_default d "photo" _) = true
           |- _ =>
             apply (decode_list_total CPhotoSize) in Hk;
             destruct Hk as (? & ? & _)
         | Hk : entity_list_payload
                  (dict_get_default d "new_chat_members" _) = true |- _ =>
             apply (decode_list_or_None_total CUser) in Hk;
             destruct Hk as (? & ? & _)
         end.
  assert (Hdec : exists self, decodes parse_time d self).
  { eexists. unfold decodes.
    do 20 eexists.
    repeat (split; [eassumption|]). reflexivity. }
  destruct Hdec as [self Hdec].
  exists d, self. split; [reflexivity|]. split; [exact Hne|].
  split; [apply decodes_from_dict; assumption | exact Hdec].
Qed.

End MessageTotality.


(** ** The depth of the parsed replies *)

(** C1, as the code has it. [from_dict] decodes ["reply_to_message"] by a
    call to itself and applies no cap: on every accepted payload it returns a
    Message whose replies nest exactly as deep as the payload's do; the depth
    is at most 1 only when the payload nests no deeper. *)
Theorem reply_depth_follows_payload
  (parse_time : pyval -> result pyval) (data : pyval) :
  message_payload parse_time data = true ->
  exists self,
    Message.from_dict parse_time data = Ok self /\
    Message.reply_depth self = Nat.pred (Message.payload_chain data) /\
    ((Message.reply_depth self <= 1)%nat <->
     (Message.payload_chain data <= 2)%nat).
Proof.
  intros H. destruct (from_dict_total parse_time data H)
    as (d & self & _ & _ & Hs & _).
  exists self. split; [exact Hs|].
  unfold Message.reply_depth.
  rewrite (reply_chain_from_dict parse_time data self Hs).
  split; [reflexivity | lia].
Qed.

Lemma reply_depth_follows_payload_witness :
  exists self,
    Message.from_dict Message.parse_time_model reply_payload_1 = Ok self /\
    Message.reply_depth self = 2%nat.
Proof.
  destruct (reply_depth_follows_payload Message.parse_time_model
              reply_payload_1 eq_refl) as (self & Hs & Hd & _).
  exists self. split; [exact Hs | exact Hd].
Defined.

(** C1, as the claim has it, fails on a payload whose reply holds a reply:
    the Message under [reply_to_message] has a Message under its own
    [reply_to_message], and the depth is 2. *)
Lemma reply_depth_not_capped :
  exists self reply nested,
    Message.from_dict Message.parse_time_model reply_payload_1 = Ok self /\
    getattr self "reply_to_message" = Ok reply /\
    getattr reply "message_id" = Ok (PInt 2) /\
    getattr reply "reply_to_message" = Ok nested /\
    getattr nested "message_id" = Ok (PInt 3) /\
    Message.reply_depth self = 2%nat /\
    ~ (Message.reply_depth self <= 1)%nat.
Proof.
  eexists. eexists. eexists.
  split; [vm_compute; reflexivity|].
  split; [reflexivity|]. split; [reflexivity|]. split; [reflexivity|].
  split; [reflexivity|]. split; [reflexivity|].
  cbv. lia.
Qed.


(** ** The list-valued fields *)

(** C3, as the code has it. On every accepted payload, when the list under
    ["new_chat_members"] is absent or empty the field [new_chat_members] is
    [None]; when the list under ["photo"] is absent or empty the field
    [photos] is the empty list, which is not turned into [None]. *)
Theorem empty_list_fields
  (parse_time : pyval -> result pyval) (d : dict) :
  message_payload parse_time (PDict d) = true ->
  exists self,
    Message.from_dict parse_time (PDict d) = Ok self /\
    (py_iter (dict_get_default d "new_chat_members" (PList [])) = Ok [] ->
     getattr self "new_chat_members" = Ok PNone) /\
    (py_iter (dict_get_default d "photo" (PList [])) = Ok [] ->
     getattr self "photos" = Ok (PList [])).
Proof.
  intros H. destruct (from_dict_total parse_time (PDict d) H)
    as (d' & self & [= <-] & _ & Hs & Hdec).
  exists self. split; [exact Hs|].
  unfold decodes in Hdec.
  destruct Hdec as (message_id & date & from_user & chat & forward_from
                    & forward_from_chat & reply_to_message & edit_date
                    & photos & document & audio & voice & location
                    & contact & animation & successful_payment & sticker
                    & invoice & new_chat_members & left_chat_member
                    & _ & _ & _ & _ & _ & _ & _ & _ & Hp & _ & _ & _ & _
                    & _ & _ & _ & _ & _ & Hn & _ & ->).
  cbn [message_payload] in H.
  repeat (apply andb_true_iff in H; let H' := fresh "H" in destruct H as [H H']).
  split; intros E; cbn.
  - match goal with
    | Hk : entity_list_payload (dict_get_default d "new_chat_members" _) = true
      |- _ =>
        destruct (decode_list_or_None_total CUser _ Hk) as (x & Hx & Hnil)
    end.
    unfold User.from_dict in Hn. rewrite Hx in Hn. injection Hn as <-.
    rewrite (Hnil E). reflexivity.
  - match goal with
    | Hk : entity_list_payload (dict_get_default d "photo" _) = true |- _ =>
        destruct (decode_list_total CPhotoSize _ Hk) as (ys & Hys & Hnil)
    end.
    unfold PhotoSize.from_dict in Hp. rewrite Hys in Hp. injection Hp as <-.
    rewrite (Hnil E). reflexivity.
Qed.

Lemma empty_list_fields_witness :
  exists self,
    Message.from_dict Message.parse_time_model bare_payload = Ok self /\
    getattr self "new_chat_members" = Ok PNone /\
    getattr self "photos" = Ok (PList []).
Proof.
  destruct (empty_list_fields Message.parse_time_model
              [("message_id", PInt 1); ("date", PInt 10)] eq_refl)
    as (self & Hs & Hn & Hp).
  exists self. split; [exact Hs|].
  split; [apply Hn; reflexivity | apply Hp; reflexivity].
Defined.

(** C3, as the claim has it, fails on the field [photos]: a payload without
    ["photo"] gives the empty list, not [None]. *)
Lemma photos_not_collapsed :
  exists self,
    Message.from_dict Message.parse_time_model bare_payload = Ok self /\
    getattr self "photos" = Ok (PList []) /\
    getattr self "photos" <> Ok PNone.
Proof.
  eexists. split; [vm_compute; reflexivity|].
  split; [reflexivity | discriminate].
Qed.


(** ** Absent optional fields *)

(** A parameter that defaults to [MissingValue] and is not given: the field
    holds the sentinel. *)
Lemma constructor_default (cls : class) (kwargs : dict) (self : pyval)
  (k : string) :
  constructor cls kwargs = Ok self ->
  In k (optional_params cls) ->
  dict_get k kwargs = None ->
  getattr self k = Ok MissingValue.
Proof.
  intros H Hin Hk.
  destruct cls; cbn [optional_params] in Hin; try contradiction;
    cbn [constructor] in H;
    unfold Chat.call, ChatMember.call, Message.call, Contact.call, Video.call
      in H;
    run_constructor H;
    cbn [In] in Hin;
    repeat (destruct Hin as [<-|Hin]; [
      cbn; unfold BaleObject.optional, dict_get_default; rewrite Hk;
      reflexivity |]);
    contradiction.
Qed.

(** An absent nested payload is decoded to [None]. *)
Ltac absent_nested Habs :=
  match type of Habs with
  | dict_get ?wire ?d = None =>
      match goal with
      | Hdec : _ (dict_get_default d wire PNone) = Ok _ |- _ =>
          unfold dict_get_default in Hdec; rewrite Habs in Hdec;
          first [ rewrite from_dict_falsy in Hdec by reflexivity
                | cbv in Hdec ];
          injection Hdec as <-
      end
  end.

Lemma Message_from_dict_absent
  (parse_time : pyval -> result pyval) (d : dict) :
  message_payload parse_time (PDict d) = true ->
  exists self,
    Message.from_dict parse_time (PDict d) = Ok self /\
    (forall k,
        In k plain_fields -> dict_get k d = None ->
        getattr self k = Ok MissingValue) /\
    (forall field wire,
        In (field, wire) nested_fields -> dict_get wire d = None ->
        getattr self field = Ok PNone).
Proof.
  intros H. destruct (from_dict_total parse_time (PDict d) H)
    as (d' & self & [= <-] & _ & Hs & Hdec).
  exists self. split; [exact Hs|].
  unfold decodes in Hdec.
  destruct Hdec as (message_id & date & from_user & chat & forward_from
                    & forward_from_chat & reply_to_message & edit_date
                    & photos & document & audio & voice & location
                    & contact & animation & successful_payment & sticker
                    & invoice & new_chat_members & left_chat_member
                    & Hid & Hdate & H2 & H3 & H4 & H5 & H6 & H7 & H8 & H9
                    & H10 & H11 & H12 & H13 & H14 & H15 & H16 & H17 & H18
                    & H19 & ->).
  clear H Hs Hdate H7 H8 H18.
  split.
  - intros k Hin Hk. cbn [plain_fields In] in Hin.
    repeat (destruct Hin as [<-|Hin]; [
      cbn; unfold BaleObject.optional, dict_get_default; rewrite Hk;
      reflexivity |]).
    contradiction.
  - intros field wire Hin Habs. cbn [nested_fields In] in Hin.
    repeat (destruct Hin as [[= <- <-]|Hin]; [
      absent_nested Habs; reflexivity |]).
    contradiction.
Qed.

Lemma Chat_from_dict_absent (p : dict) :
  p <> [] ->
  chat_payload (PDict p) = true ->
  exists self,
    Chat.from_dict (PDict p) = Ok self /\
    (forall k,
        In k chat_plain_fields -> dict_get k p = None ->
        getattr self k = Ok MissingValue) /\
    (dict_get "photo" p = None -> getattr self "photo" = Ok PNone).
Proof.
  intros Hne H. destruct (Chat_from_dict_total _ H) as [self Hs].
  exists self. split; [exact Hs|].
  apply Chat_from_dict_Ok in Hs; [|exact Hne].
  destruct Hs as (chat_id & chat_type & photo & _ & _ & Hphoto & ->).
  split.
  - intros k Hin Hk. cbn [chat_plain_fields In] in Hin.
    repeat (destruct Hin as [<-|Hin]; [
      cbn; unfold BaleObject.optional, dict_get_default; rewrite Hk;
      reflexivity |]).
    contradiction.
  - intros Hk. unfold dict_get_default in Hphoto. rewrite Hk in Hphoto.
    cbv in Hphoto. injection Hphoto as <-. reflexivity.
Qed.

(** C2, as the code has it. A constructor parameter that is not given holds
    the sentinel; [from_dict] leaves the plain optional fields of a Message
    (text, caption, forward_from_message_id, video) and of a Chat (title,
    username, first_name, last_name, invite_link) to the constructor, so they
    hold the sentinel when the payload lacks them; the fields it decodes with
    the [from_dict] of another entity (chat, document, forward_from, ...; the
    photo of a Chat) are [None] when the payload lacks them.  No error is
    raised in either case. *)
Theorem absent_fields :
  (forall cls kwargs self k,
      constructor cls kwargs = Ok self ->
      In k (optional_params cls) ->
      dict_get k kwargs = None ->
      getattr self k = Ok MissingValue) /\
  (forall parse_time d,
      message_payload parse_time (PDict d) = true ->
      exists self,
        Message.from_dict parse_time (PDict d) = Ok self /\
        (forall k,
            In k plain_fields -> dict_get k d = None ->
            getattr self k = Ok MissingValue) /\
        (forall field wire,
            In (field, wire) nested_fields -> dict_get wire d = None ->
            getattr self field = Ok PNone)) /\
  (forall p,
      p <> [] ->
      chat_payload (PDict p) = true ->
      exists self,
        Chat.from_dict (PDict p) = Ok self /\
        (forall k,
            In k chat_plain_fields -> dict_get k p = None ->
            getattr self k = Ok MissingValue) /\
        (dict_get "photo" p = None -> getattr self "photo" = Ok PNone)).
Proof.
  split; [exact constructor_default|].
  split; [exact Message_from_dict_absent | exact Chat_from_dict_absent].
Qed.

Lemma absent_fields_witness :
  exists self,
    Message.from_dict Message.parse_time_model bare_payload = Ok self /\
    getattr self "text" = Ok MissingValue /\
    getattr self "video" = Ok MissingValue /\
    getattr self "chat" = Ok PNone /\
    getattr self "from_user" = Ok PNone.
Proof.
  destruct (proj1 (proj2 absent_fields) Message.parse_time_model
              [("message_id", PInt 1); ("date", PInt 10)] eq_refl)
    as (self & Hs & Hplain & Hnested).
  exists self. split; [exact Hs|].
  split; [apply Hplain; [cbn; tauto | reflexivity]|].
  split; [apply Hplain; [cbn; tauto | reflexivity]|].
  split; [apply (Hnested "chat" "chat"); [cbn; tauto | reflexivity]|].
  apply (Hnested "from_user" "from"); [cbn; tauto | reflexivity].
Defined.

(** C2, as the claim has it, fails on the nested fields: a payload without
    chat, document and forward_from gives [None] in the three fields, not the
    sentinel. *)
Lemma nested_fields_are_None :
  exists self,
    Message.from_dict Message.parse_time_model bare_payload = Ok self /\
    getattr self "chat" = Ok PNone /\
    getattr self "document" = Ok PNone /\
    getattr self "forward_from" = Ok PNone /\
    getattr self "chat" <> Ok MissingValue /\
    getattr self "document" <> Ok MissingValue /\
    getattr self "forward_from" <> Ok MissingValue.
Proof.
  eexists. split; [vm_compute; reflexivity|].
  repeat split; discriminate.
Qed.


(** * Further properties of the source *)

(** ** The error classes *)

Lemma InvalidToken_matches_lowered (s : string) :
  contains "token not found" (lower s) = true ->
  InvalidToken.check_description (PStr s) = Ok (PBool true).
Proof.
  intros H. unfold InvalidToken.check_description, py_and.
  assert (Hs : truthy (PStr s) = true).
  { destruct s; [discriminate H | reflexivity]. }
  rewrite Hs. cbn [py_lower bind py_contains]. rewrite H. reflexivity.
Qed.

(** X1. [check_response] is inherited unchanged and names
    [BaleError.check_description]: for every class and every response it
    answers [False], also where the class's own [check_description] matches
    the description; on an absent response it raises. *)
Theorem check_response_never_matches :
  (forall cls r, check_response cls (Some r) = Ok (PBool false)) /\
  (forall cls, check_response cls None = Raise AttributeError) /\
  (forall s,
      contains "token not found" (lower s) = true ->
      check_description EInvalidToken (PStr s) = Ok (PBool true) /\
      check_response EInvalidToken (Some {| description := PStr s |})
      = Ok (PBool false)).
Proof.
  split; [reflexivity|]. split; [reflexivity|].
  intros s H. split; [apply InvalidToken_matches_lowered, H | reflexivity].
Qed.

Lemma check_response_never_matches_witness :
  check_description EInvalidToken (PStr HTTPClientError.TOKEN_NOT_FOUND)
  = Ok (PBool true) /\
  check_response EInvalidToken
    (Some {| description := PStr HTTPClientError.TOKEN_NOT_FOUND |})
  = Ok (PBool false).
Proof.
  apply (proj2 (proj2 check_response_never_matches)). reflexivity.
Defined.

(** X2. No description is matched by both [Forbidden] and [BadRequest]. *)
Theorem Forbidden_BadRequest_exclusive (d v1 v2 : pyval) :
  Forbidden.check_description d = Ok v1 ->
  BadRequest.check_description d = Ok v2 ->
  truthy v1 && truthy v2 = false.
Proof.
  unfold Forbidden.check_description, BadRequest.check_description, py_and.
  destruct (truthy d) eqn:Hd.
  - destruct d; try discriminate 1.
    cbn [py_startswith]. intros [= <-] [= <-]. cbn [truthy].
    destruct s as [|c s]; [reflexivity|].
    unfold startswith. cbn [String.prefix].
    destruct (ascii_dec "F" c) as [<-|]; [|reflexivity].
    destruct (ascii_dec "B" "F") as [E|]; [discriminate E|].
    apply andb_false_r.
  - intros [= <-] _. rewrite Hd. reflexivity.
Qed.

Lemma Forbidden_BadRequest_exclusive_witness :
  Forbidden.check_description (PStr "Forbidden: no rights") = Ok (PBool true) /\
  BadRequest.check_description (PStr "Forbidden: no rights") = Ok (PBool false) /\
  truthy (PBool true) && truthy (PBool false) = false.
Proof.
  split; [reflexivity|]. split; [reflexivity|].
  apply (Forbidden_BadRequest_exclusive (PStr "Forbidden: no rights"));
    reflexivity.
Defined.




(** X4. An [InvalidToken] and a [NotFound] never carry an empty message: a
    message that is not given, or is given empty ([None], the empty string),
    is replaced by the text of the class; a non-empty one is kept. *)
Theorem default_message
  (str : pyval -> string) (cls : error_class) (args : list pyval) (e : error) :
  cls = EInvalidToken \/ cls = ENotFound ->
  new str cls args = Ok e ->
  truthy (message e) = true /\
  (forall m, args = [m] -> truthy m = true -> message e = m) /\
  (forall m, args = [m] -> truthy m = false ->
             message e = PStr (if class_name cls =? "NotFound"
                               then "Not Found" else "Invalid Token")%string).
Proof.
  intros [-> | ->] H;
    destruct args as [|m [|m' args]]; try discriminate H;
    cbn [new] in H; injection H as <-;
    unfold InvalidToken.__init__, NotFound.__init__, BaleError.__init__;
    cbn [message truthy];
    (split; [| split; intros m0 [= <-] Hm; rewrite Hm; reflexivity
               || (intros m0 E; discriminate E)]);
    try reflexivity;
    destruct (truthy m) eqn:Hm; [exact Hm | reflexivity | exact Hm | reflexivity].
Qed.

Lemma default_message_witness :
  exists e,
    new (fun _ => EmptyString) ENotFound [PStr EmptyString] = Ok e /\
    message e = PStr "Not Found" /\ truthy (message e) = true.
Proof.
  eexists. split; [reflexivity|]. split; [reflexivity|].
  apply (default_message (fun _ => EmptyString) ENotFound [PStr EmptyString]);
    [right; reflexivity | reflexivity].
Defined.

(** X5. An instance of [BaleError], [InvalidToken], [NetworkError],
    [NotFound], [Forbidden], [BadRequest] or [HTTPException] is rebuilt from
    its [__reduce__] as it was. *)
Theorem reduce_round_trip
  (str : pyval -> string) (cls : error_class) (args : list pyval) (e : error) :
  In cls [EBaleError; EInvalidToken; ENetworkError; ENotFound; EForbidden;
          EBadRequest; EHTTPException] ->
  new str cls args = Ok e ->
  rebuild str e = Ok e.
Proof.
  intros Hin H. cbn [In] in Hin.
  repeat (destruct Hin as [<-|Hin]; [
    destruct args as [|m [|m' args]]; try discriminate H;
    cbn [new] in H; injection H as <-;
    unfold rebuild, __reduce__; cbn [fst snd error_cls message new];
    unfold InvalidToken.__init__, NotFound.__init__, Forbidden.__init__,
      BadRequest.__init__, HTTPException.__init__, BaleError.__init__;
    cbn [truthy]; try reflexivity;
    destruct (truthy m) eqn:Hm; cbn [truthy]; rewrite ?Hm; reflexivity |]).
  contradiction.
Qed.

Lemma reduce_round_trip_witness :
  exists e,
    new (fun _ => EmptyString) EInvalidToken [] = Ok e /\
    message e = PStr "Invalid Token" /\
    rebuild (fun _ => EmptyString) e = Ok e.
Proof.
  eexists. split; [reflexivity|]. split; [reflexivity|].
  apply (reduce_round_trip (fun _ => EmptyString) EInvalidToken []);
    [cbn; tauto | reflexivity].
Defined.

(** X6. An instance of [APIError], [TimeOut] or [RateLimited] cannot be
    rebuilt from its [__reduce__]: the one argument it hands on does not fit
    the [__init__] of the class, and the call raises [TypeError]. *)
Theorem reduce_fails
  (str : pyval -> string) (cls : error_class) (args : list pyval) (e : error) :
  In cls [EAPIError; ETimeOut; ERateLimited] ->
  new str cls args = Ok e ->
  rebuild str e = Raise TypeError.
Proof.
  intros Hin H. cbn [In] in Hin.
  repeat (destruct Hin as [<-|Hin]; [
    destruct args as [|m [|m' [|m'' args]]]; try discriminate H;
    cbn [new] in H; injection H as <-; reflexivity |]).
  contradiction.
Qed.

Lemma reduce_fails_witness :
  exists e,
    new (fun _ => EmptyString) ETimeOut [] = Ok e /\
    message e = PStr "Time Out" /\
    rebuild (fun _ => EmptyString) e = Raise TypeError.
Proof.
  eexists. split; [reflexivity|]. split; [reflexivity|].
  apply (reduce_fails (fun _ => EmptyString) ETimeOut []);
    [cbn; tauto | reflexivity].
Defined.

(** ** Chat *)

Lemma Chat_call_Ok (kwargs : dict) (self : pyval) :
  Chat.call kwargs = Ok self ->
  exists chat_id chat_type,
    dict_get "chat_id" kwargs = Some chat_id /\
    dict_get "chat_type" kwargs = Some chat_type /\
    self =
      PObj CChat true chat_id
        [("id", chat_id); ("type", chat_type);
         ("title", optional kwargs "title" MissingValue);
         ("username", optional kwargs "username" MissingValue);
         ("first_name", optional kwargs "first_name" MissingValue);
         ("last_name", optional kwargs "last_name" MissingValue);
         ("photo", optional kwargs "photo" MissingValue);
         ("invite_link", optional kwargs "invite_link" MissingValue)].
Proof.
  unfold Chat.call. intros H.
  step_bind H. step_bind H. apply required_Ok in E, E0.
  exists a, a0. split; [exact E|]. split; [exact E0|].
  cbn in H. congruence.
Qed.

Lemma string_neq_eqb (a b : string) : a <> b -> String.eqb a b = false.
Proof. intros H. apply String.eqb_neq, H. Qed.

(** X7. The three predicates on the type of a Chat exclude one another, and
    one of them holds exactly when the type is "private", "group" or
    "channel": for any other type (a supergroup, a number, the sentinel) the
    Chat is none of the three. *)
Theorem chat_type_predicates (kwargs : dict) (self : pyval) :
  Chat.call kwargs = Ok self ->
  exists (chat_type : pyval) (p g c : bool),
    dict_get "chat_type" kwargs = Some chat_type /\
    Chat.is_private_chat self = Ok (PBool p) /\
    Chat.is_group_chat self = Ok (PBool g) /\
    Chat.is_channel_chat self = Ok (PBool c) /\
    p && g = false /\ p && c = false /\ g && c = false /\
    (p = true <-> chat_type = PStr "private") /\
    (g = true <-> chat_type = PStr "group") /\
    (c = true <-> chat_type = PStr "channel").
Proof.
  intros H. apply Chat_call_Ok in H.
  destruct H as (chat_id & chat_type & _ & Ht & ->).
  exists chat_type, (py_eq chat_type (PStr Chat.PRIVATE)),
    (py_eq chat_type (PStr Chat.GROUP)), (py_eq chat_type (PStr Chat.CHANNEL)).
  split; [exact Ht|].
  split; [reflexivity|]. split; [reflexivity|]. split; [reflexivity|].
  assert (Hx : forall a b : string,
             a <> b ->
             py_eq chat_type (PStr a) && py_eq chat_type (PStr b) = false).
  { intros a b Hab.
    destruct (py_eq chat_type (PStr a)) eqn:Ea; [|reflexivity].
    apply py_eq_str in Ea. subst chat_type. cbn [py_eq andb].
    apply string_neq_eqb, Hab. }
  split; [apply Hx; discriminate|].
  split; [apply Hx; discriminate|].
  split; [apply Hx; discriminate|].
  split; [apply py_eq_str|]. split; apply py_eq_str.
Qed.

Lemma chat_type_predicates_witness :
  exists self,
    Chat.call [("chat_id", PInt 1); ("chat_type", PStr "supergroup")] = Ok self /\
    Chat.is_private_chat self = Ok (PBool false) /\
    Chat.is_group_chat self = Ok (PBool false) /\
    Chat.is_channel_chat self = Ok (PBool false).
Proof.
  eexists. split; [reflexivity|].
  destruct (chat_type_predicates
              [("chat_id", PInt 1); ("chat_type", PStr "supergroup")] _ eq_refl)
    as (t & p & g & c & Ht & Hp & Hg & Hc & _).
  cbv in Hp, Hg, Hc. injection Hp as <-. injection Hg as <-. injection Hc as <-.
  repeat split.
Defined.

Lemma Chat_from_dict_falsy (v : pyval) :
  truthy v = false -> Chat.from_dict v = Ok PNone.
Proof.
  intros Hv. unfold Chat.from_dict, BaleObject.parse_data.
  rewrite Hv. reflexivity.
Qed.

Lemma Chat_from_dict_no_id (d : dict) :
  d <> [] -> dict_get "id" d = None ->
  Chat.from_dict (PDict d) = Raise KeyError.
Proof.
  intros Hne Hi. unfold Chat.from_dict, BaleObject.parse_data.
  assert (Ht : truthy (PDict d) = true)
    by (destruct d; [contradiction | reflexivity]).
  rewrite Ht. cbn [negb]. rewrite Ht. cbn [negb py_pop]. rewrite Hi.
  reflexivity.
Qed.

(** X8. [Chat.from_dict] on an empty or absent payload returns [None]; on a
    non-empty payload that lacks the key "id", or has it and lacks the key
    "type", it raises [KeyError] and builds no Chat. *)
Theorem Chat_from_dict_errors :
  (forall v, truthy v = false -> Chat.from_dict v = Ok PNone) /\
  (forall d,
      d <> [] -> dict_get "id" d = None ->
      Chat.from_dict (PDict d) = Raise KeyError) /\
  (forall d i,
      dict_get "id" d = Some i -> dict_get "type" d = None ->
      Chat.from_dict (PDict d) = Raise KeyError).
Proof.
  split; [exact Chat_from_dict_falsy|]. split; [exact Chat_from_dict_no_id|].
  intros d i Hi Hty. unfold Chat.from_dict, BaleObject.parse_data.
  rewrite (dict_get_nonempty "id" d i Hi). cbn [negb].
  rewrite (dict_get_nonempty "id" d i Hi). cbn [negb py_pop]. rewrite Hi.
  cbn [bind py_setitem py_pop].
  rewrite dict_get_set, dict_get_remove. cbn [String.eqb Ascii.eqb Bool.eqb].
  rewrite Hty. reflexivity.
Qed.

Lemma Chat_from_dict_errors_witness :
  Chat.from_dict (PDict []) = Ok PNone /\
  Chat.from_dict (PDict [("type", PStr "group")]) = Raise KeyError /\
  Chat.from_dict (PDict [("id", PInt 5); ("title", PStr "t")]) = Raise KeyError.
Proof.
  split; [apply (proj1 Chat_from_dict_errors); reflexivity|].
  split; [apply (proj1 (proj2 Chat_from_dict_errors));
          [discriminate | reflexivity]|].
  apply (proj2 (proj2 Chat_from_dict_errors) _ (PInt 5)); reflexivity.
Defined.

(** X9. A Chat decoded from a non-empty payload takes its [id], its identity
    [_id] and its [type] from the keys "id" and "type" of the payload, and
    is locked; keys "chat_id" and "chat_type" of the payload are not read. *)
Theorem Chat_from_dict_fields (p : dict) (self : pyval) :
  p <> [] ->
  Chat.from_dict (PDict p) = Ok self ->
  exists i t,
    dict_get "id" p = Some i /\ dict_get "type" p = Some t /\
    getattr self "id" = Ok i /\ getattr self "_id" = Ok i /\
    getattr self "type" = Ok t /\
    BaleObject.is_locked self = true /\
    (Chat.is_private_chat self = Ok (PBool true) <-> t = PStr "private").
Proof.
  intros Hne H. apply Chat_from_dict_Ok in H; [|exact Hne].
  destruct H as (i & t & photo & Hi & Ht & _ & ->).
  exists i, t. repeat (split; [first [assumption | reflexivity]|]).
  unfold Chat.is_private_chat. cbn [getattr BaleObject.getattr String.eqb
    Ascii.eqb Bool.eqb dict_get bind].
  rewrite <- py_eq_str. unfold Chat.PRIVATE.
  destruct (py_eq t (PStr "private")); split; congruence.
Qed.

Lemma Chat_from_dict_fields_witness :
  exists self,
    Chat.from_dict
      (PDict [("id", PInt 7); ("type", PStr "private"); ("chat_id", PInt 8);
              ("chat_type", PStr "group")]) = Ok self /\
    getattr self "id" = Ok (PInt 7) /\
    Chat.is_private_chat self = Ok (PBool true).
Proof.
  eexists. split; [reflexivity|].
  destruct (Chat_from_dict_fields
              [("id", PInt 7); ("type", PStr "private"); ("chat_id", PInt 8);
               ("chat_type", PStr "group")] _ ltac:(discriminate) eq_refl)
    as (i & t & Hi & Ht & Hid & _ & _ & _ & Hp).
  injection Hi as <-. injection Ht as <-.
  split; [exact Hid | apply Hp; reflexivity].
Defined.

(** ** Message *)

(** X10. [Message.from_dict] returns [None] on every empty or absent payload
    and raises [AttributeError] on a non-empty value that is not a dict (it
    has no [get]). *)
Theorem Message_from_dict_not_a_dict (parse_time : pyval -> result pyval) :
  (forall v, truthy v = false -> Message.from_dict parse_time v = Ok PNone) /\
  (forall v,
      truthy v = true -> (forall d, v <> PDict d) ->
      Message.from_dict parse_time v = Raise AttributeError).
Proof.
  split; [apply from_dict_falsy|].
  intros v Hv Hd. rewrite from_dict_eq.
  unfold Message.from_dict_body, BaleObject.parse_data. cbv zeta.
  rewrite Hv. cbn [negb]. rewrite Hv. cbn [negb].
  destruct v; try reflexivity. exfalso. apply (Hd d). reflexivity.
Qed.

Lemma Message_from_dict_not_a_dict_witness :
  Message.from_dict Message.parse_time_model (PDict []) = Ok PNone /\
  Message.from_dict Message.parse_time_model (PList [PInt 1])
  = Raise AttributeError.
Proof.
  split.
  - apply (proj1 (Message_from_dict_not_a_dict Message.parse_time_model)).
    reflexivity.
  - apply (proj2 (Message_from_dict_not_a_dict Message.parse_time_model));
      [reflexivity | discriminate].
Defined.



Ltac open_decodes Hdec :=
  unfold decodes in Hdec;
  destruct Hdec as (message_id & date & from_user & chat & forward_from
                    & forward_from_chat & reply_to_message & edit_date
                    & photos & document & audio & voice & location
                    & contact & animation & successful_payment & sticker
                    & invoice & new_chat_members & left_chat_member
                    & Hmessage_id & Hdate & Hfrom_user & Hchat & Hforward_from
                    & Hforward_from_chat & Hreply_to_message & Hedit_date
                    & Hphotos & Hdocument & Haudio & Hvoice & Hlocation
                    & Hcontact & Hanimation & Hsuccessful_payment & Hsticker
                    & Hinvoice & Hnew_chat_members & Hleft_chat_member & ->).

(** X12. The sender of a decoded Message is read from the key "from" of the
    payload and exposed as [from_user] and [author]; a key "from_user" of the
    payload is not read. *)
Theorem Message_sender_from_key_from
  (parse_time : pyval -> result pyval) (d : dict) :
  message_payload parse_time (PDict d) = true ->
  exists self sender,
    Message.from_dict parse_time (PDict d) = Ok self /\
    User.from_dict (dict_get_default d "from" PNone) = Ok sender /\
    getattr self "from_user" = Ok sender /\
    Message.author self = Ok sender.
Proof.
  intros H. destruct (from_dict_total parse_time (PDict d) H)
    as (d' & self & [= <-] & _ & Hs & Hdec).
  open_decodes Hdec.
  eexists. exists from_user. split; [exact Hs|].
  split; [exact Hfrom_user|]. split; reflexivity.
Qed.

Lemma Message_sender_from_key_from_witness :
  exists self,
    Message.from_dict Message.parse_time_model
      (PDict [("message_id", PInt 1); ("date", PInt 10);
              ("from", PDict [("id", PInt 4)]);
              ("from_user", PDict [("id", PInt 9)])]) = Ok self /\
    Message.author self = Ok (PObj CUser true PNone [("id", PInt 4)]).
Proof.
  destruct (Message_sender_from_key_from Message.parse_time_model
              [("message_id", PInt 1); ("date", PInt 10);
               ("from", PDict [("id", PInt 4)]);
               ("from_user", PDict [("id", PInt 9)])] eq_refl)
    as (self & sender & Hs & Hu & _ & Ha).
  exists self. split; [exact Hs|].
  cbv in Hu. injection Hu as <-. exact Ha.
Defined.

(** X13. [chat_id] of a decoded Message is the "id" of the chat payload, and
    [None] when the payload has no chat or an empty one. *)
Theorem Message_chat_id_from_payload
  (parse_time : pyval -> result pyval) (d : dict) :
  message_payload parse_time (PDict d) = true ->
  exists self,
    Message.from_dict parse_time (PDict d) = Ok self /\
    (forall c i,
        dict_get "chat" d = Some (PDict c) -> dict_get "id" c = Some i ->
        Message.chat_id self = Ok i) /\
    (truthy (dict_get_default d "chat" PNone) = false ->
     Message.chat_id self = Ok PNone).
Proof.
  intros H. destruct (from_dict_total parse_time (PDict d) H)
    as (d' & self & [= <-] & _ & Hs & Hdec).
  open_decodes Hdec.
  eexists. split; [exact Hs|]. split.
  - intros c i Hc Hi. unfold dict_get_default in Hchat. rewrite Hc in Hchat.
    apply Chat_from_dict_Ok in Hchat; [|intros ->; discriminate Hi].
    destruct Hchat as (i' & t & ph & Hi' & _ & _ & ->).
    rewrite Hi in Hi'. injection Hi' as <-. reflexivity.
  - intros Hf. rewrite (Chat_from_dict_falsy _ Hf) in Hchat.
    injection Hchat as <-. reflexivity.
Qed.

Lemma Message_chat_id_from_payload_witness :
  exists self,
    Message.from_dict Message.parse_time_model
      (PDict [("message_id", PInt 1); ("date", PInt 10);
              ("chat", PDict [("id", PInt 77); ("type", PStr "group")])])
    = Ok self /\
    Message.chat_id self = Ok (PInt 77).
Proof.
  destruct (Message_chat_id_from_payload Message.parse_time_model
              [("message_id", PInt 1); ("date", PInt 10);
               ("chat", PDict [("id", PInt 77); ("type", PStr "group")])]
              eq_refl) as (self & Hs & Hc & _).
  exists self. split; [exact Hs|].
  apply (Hc [("id", PInt 77); ("type", PStr "group")]); reflexivity.
Defined.

(** X14. [reply_to_message_id] of a decoded Message is the "message_id" of
    the payload under "reply_to_message", and [None] when the payload has no
    reply or an empty one. *)
Theorem Message_reply_id_from_payload
  (parse_time : pyval -> result pyval) (d : dict) :
  message_payload parse_time (PDict d) = true ->
  exists self,
    Message.from_dict parse_time (PDict d) = Ok self /\
    (forall r m,
        dict_get "reply_to_message" d = Some (PDict r) ->
        dict_get "message_id" r = Some m ->
        Message.reply_to_message_id self = Ok m) /\
    (truthy (dict_get_default d "reply_to_message" PNone) = false ->
     Message.reply_to_message_id self = Ok PNone).
Proof.
  intros H. destruct (from_dict_total parse_time (PDict d) H)
    as (d' & self & [= <-] & _ & Hs & Hdec).
  open_decodes Hdec.
  eexists. split; [exact Hs|]. split.
  - intros r m Hr Hm. unfold dict_get_default in Hreply_to_message.
    rewrite Hr in Hreply_to_message.
    apply from_dict_decodes in Hreply_to_message;
      [|intros ->; discriminate Hm].
    unfold decodes in Hreply_to_message.
    destruct Hreply_to_message as (m' & Hrest).
    repeat destruct Hrest as (? & Hrest).
    match goal with
    | Hid : dict_get "message_id" r = Some m' |- _ =>
        rewrite Hm in Hid; injection Hid as <-
    end.
    subst reply_to_message. reflexivity.
  - intros Hf. rewrite (from_dict_falsy parse_time _ Hf) in Hreply_to_message.
    injection Hreply_to_message as <-. reflexivity.
Qed.

Lemma Message_reply_id_from_payload_witness :
  exists self,
    Message.from_dict Message.parse_time_model reply_payload_2 = Ok self /\
    Message.reply_to_message_id self = Ok (PInt 3).
Proof.
  destruct (Message_reply_id_from_payload Message.parse_time_model
              [("message_id", PInt 2); ("date", PInt 20);
               ("text", PStr "second"); ("reply_to_message", reply_payload_3)]
              eq_refl) as (self & Hs & Hr & _).
  exists self. split; [exact Hs|].
  apply (Hr [("message_id", PInt 3); ("date", PInt 30);
             ("text", PStr "first")]); reflexivity.
Defined.

(** X15. [from_dict] has no line for the key "video": the field [video] of a
    decoded Message is the value of the payload as it is (a dict, not a
    Video), and when that value is not empty [attachment] returns it. *)
Theorem Message_video_not_decoded
  (parse_time : pyval -> result pyval) (d : dict) :
  message_payload parse_time (PDict d) = true ->
  exists self,
    Message.from_dict parse_time (PDict d) = Ok self /\
    getattr self "video" = Ok (dict_get_default d "video" MissingValue) /\
    (truthy (dict_get_default d "video" MissingValue) = true ->
     Message.attachment self = Ok (dict_get_default d "video" MissingValue)).
Proof.
  intros H. destruct (from_dict_total parse_time (PDict d) H)
    as (d' & self & [= <-] & _ & Hs & Hdec).
  open_decodes Hdec.
  eexists. split; [exact Hs|]. split; [reflexivity|].
  intros Hv. unfold Message.attachment, py_or.
  cbn [getattr BaleObject.getattr String.eqb Ascii.eqb Bool.eqb dict_get bind].
  unfold BaleObject.optional. rewrite Hv. cbn [bind]. rewrite Hv. reflexivity.
Qed.

Lemma Message_video_not_decoded_witness :
  exists self,
    Message.from_dict Message.parse_time_model
      (PDict [("message_id", PInt 1); ("date", PInt 10);
              ("video", PDict [("file_id", PStr "f"); ("width", PInt 2)])])
    = Ok self /\
    Message.attachment self
    = Ok (PDict [("file_id", PStr "f"); ("width", PInt 2)]).
Proof.
  destruct (Message_video_not_decoded Message.parse_time_model
              [("message_id", PInt 1); ("date", PInt 10);
               ("video", PDict [("file_id", PStr "f"); ("width", PInt 2)])]
              eq_refl) as (self & Hs & _ & Ha).
  exists self. split; [exact Hs | apply Ha; reflexivity].
Defined.

(** X16. An error in a nested payload is the error of the whole Message: when
    the chat payload is not empty and lacks the key "id", [from_dict] raises
    [KeyError]. *)
Theorem Message_from_dict_bad_chat
  (parse_time : pyval -> result pyval) (d c : dict) (t : pyval) :
  parse_time (dict_get_default d "date" PNone) = Ok t ->
  entity_payload (dict_get_default d "from" PNone) = true ->
  dict_get "chat" d = Some (PDict c) ->
  c <> [] ->
  dict_get "id" c = None ->
  Message.from_dict parse_time (PDict d) = Raise KeyError.
Proof.
  intros Ht Hf Hc Hne Hi.
  destruct (opaque_from_dict_total CUser _ Hf) as [u Hu].
  rewrite from_dict_eq.
  unfold Message.from_dict_body, BaleObject.parse_data. cbv zeta.
  rewrite (dict_get_nonempty "chat" d _ Hc). cbn [negb].
  rewrite (dict_get_nonempty "chat" d _ Hc). cbn [negb].
  unfold Message.decode_head.
  rewrite (assign_get_Ok parse_time "date" "date" PNone t d Ht). cbn [bind].
  erewrite (assign_pop_Ok User.from_dict "from_user" "from" PNone u);
    [|dict_simpl; exact Hu].
  cbn [bind]. unfold Message.assign_get at 1. cbn [py_get bind].
  dict_simpl. rewrite Hc.
  rewrite (Chat_from_dict_no_id c Hne Hi). reflexivity.
Qed.

Lemma Message_from_dict_bad_chat_witness :
  Message.from_dict Message.parse_time_model
    (PDict [("message_id", PInt 1); ("date", PInt 10);
            ("chat", PDict [("type", PStr "group")])]) = Raise KeyError.
Proof.
  apply (Message_from_dict_bad_chat Message.parse_time_model _
           [("type", PStr "group")] (PDatetime 10));
    [reflexivity | reflexivity | reflexivity | discriminate | reflexivity].
Defined.

(** ** ChatMember and Contact *)



(** X18. The identity of a constructed ChatMember is the pair of the id of
    its user and its status: two members with the same user id and status
    are equal, two members whose statuses are different strings are not, even
    for the same user. *)
Theorem ChatMember_identity (k1 k2 : dict) (m1 m2 : pyval) :
  ChatMember.call k1 = Ok m1 ->
  ChatMember.call k2 = Ok m2 ->
  exists st1 u1 uid1 st2 u2 uid2,
    dict_get "status" k1 = Some st1 /\ dict_get "user" k1 = Some u1 /\
    getattr u1 "id" = Ok uid1 /\
    dict_get "status" k2 = Some st2 /\ dict_get "user" k2 = Some u2 /\
    getattr u2 "id" = Ok uid2 /\
    getattr m1 "_id" = Ok (PTuple [uid1; st1]) /\
    getattr m2 "_id" = Ok (PTuple [uid2; st2]) /\
    (is_json uid1 = true -> is_json st1 = true ->
     uid1 = uid2 -> st1 = st2 -> BaleObject.__eq__ m1 m2 = true) /\
    (forall s1 s2, st1 = PStr s1 -> st2 = PStr s2 -> s1 <> s2 ->
                   BaleObject.__eq__ m1 m2 = false).
Proof.
  intros H1 H2.
  apply ChatMember_call_Ok in H1, H2.
  destruct H1 as (st1 & u1 & uid1 & slots1 & Hs1 & Hu1 & Hi1 & ->).
  destruct H2 as (st2 & u2 & uid2 & slots2 & Hs2 & Hu2 & Hi2 & ->).
  exists st1, u1, uid1, st2, u2, uid2.
  repeat (split; [first [assumption | reflexivity]|]).
  split.
  - intros Hj1 Hj2 <- <-.
    cbn [BaleObject.__eq__ py_eq class_eqb andb forall2b].
    rewrite (py_eq_refl uid1 Hj1), (py_eq_refl st1 Hj2). reflexivity.
  - intros s1 s2 -> -> Hne.
    cbn [BaleObject.__eq__ py_eq class_eqb andb forall2b].
    rewrite (string_neq_eqb s1 s2 Hne), andb_false_r. reflexivity.
Qed.

Lemma ChatMember_identity_witness :
  exists m1 m2,
    ChatMember.call
      [("status", PStr "member");
       ("user", PObj CUser true PNone [("id", PInt 7)])] = Ok m1 /\
    ChatMember.call
      [("status", PStr "administrator");
       ("user", PObj CUser true PNone [("id", PInt 7)])] = Ok m2 /\
    BaleObject.__eq__ m1 m2 = false.
Proof.
  eexists. eexists. split; [reflexivity|]. split; [reflexivity|].
  destruct (ChatMember_identity
              [("status", PStr "member");
               ("user", PObj CUser true PNone [("id", PInt 7)])]
              [("status", PStr "administrator");
               ("user", PObj CUser true PNone [("id", PInt 7)])]
              _ _ eq_refl eq_refl)
    as (st1 & u1 & uid1 & st2 & u2 & uid2 & Hs1 & _ & _ & Hs2 & _ & _ & _ & _
        & _ & Hne).
  injection Hs1 as <-. injection Hs2 as <-.
  apply (Hne "member" "administrator"); [reflexivity | reflexivity | discriminate].
Defined.



(** ** The standalone Chat of balebot *)

(** X20. [to_dict] reads the key "pinned_message" of the dict it has just
    created empty: on every Chat it raises [KeyError] and returns no dict. *)
Theorem balebot_to_dict_raises
  (is_Message : pyval -> bool) (Message_to_dict : pyval -> result pyval)
  (self : Balebot.Chat.t) :
  Balebot.Chat.to_dict is_Message Message_to_dict self = Raise KeyError.
Proof. reflexivity. Qed.

(** X21. [dict] indexes the key "pinned_message" and reads the other keys
    with [get]: a payload without "pinned_message" raises [KeyError]; with a
    value there that is not a list, the Chat has no pinned message and every
    field is the value of the payload, [None] for an absent key. *)
Theorem balebot_dict_spec
  (Message_dict : pyval -> pyval -> result pyval) (d : list (string * pyval))
  (bot : pyval) :
  (dict_get "pinned_message" d = None ->
   Balebot.Chat.dict Message_dict (PDict d) bot = Raise KeyError) /\
  (forall v,
      dict_get "pinned_message" d = Some v -> is_list v = false ->
      Balebot.Chat.dict Message_dict (PDict d) bot =
      Ok (Balebot.Chat.mk
            (dict_get_default d "id" PNone) (dict_get_default d "type" PNone)
            (dict_get_default d "title" PNone)
            (dict_get_default d "username" PNone)
            (dict_get_default d "first_name" PNone)
            (dict_get_default d "last_name" PNone)
            (PList []) bot)).
Proof.
  split.
  - intros H. unfold Balebot.Chat.dict, py_getitem. rewrite H. reflexivity.
  - intros v H Hv. unfold Balebot.Chat.dict, py_getitem. rewrite H.
    cbn [bind]. rewrite Hv. reflexivity.
Qed.

Lemma balebot_dict_spec_witness :
  Balebot.Chat.dict (fun _ _ => Raise TypeError)
    (PDict [("id", PInt 3); ("type", PStr "group")]) PNone = Raise KeyError /\
  Balebot.Chat.dict (fun _ _ => Raise TypeError)
    (PDict [("id", PInt 3); ("pinned_message", PNone)]) PNone
  = Ok (Balebot.Chat.mk (PInt 3) PNone PNone PNone PNone PNone (PList []) PNone).
Proof.
  split.
  - exact (proj1 (balebot_dict_spec (fun _ _ => Raise TypeError)
                    [("id", PInt 3); ("type", PStr "group")] PNone) eq_refl).
  - exact (proj2 (balebot_dict_spec (fun _ _ => Raise TypeError)
                    [("id", PInt 3); ("pinned_message", PNone)] PNone)
             PNone eq_refl eq_refl).
Defined.

(** X22. With a list under "pinned_message", [dict] decodes its elements with
    [Message.dict], in order; the first error among them is the error of
    [dict]. *)
Theorem balebot_dict_pinned
  (Message_dict : pyval -> pyval -> result pyval) (d : list (string * pyval))
  (bot : pyval) (l : list pyval) :
  dict_get "pinned_message" d = Some (PList l) ->
  (forall ms,
      comprehension (Message_dict bot) l = Ok ms ->
      exists chat,
        Balebot.Chat.dict Message_dict (PDict d) bot = Ok chat /\
        Balebot.Chat.pinned_message chat = PList ms /\
        List.length ms = List.length l) /\
  (forall e,
      comprehension (Message_dict bot) l = Raise e ->
      Balebot.Chat.dict Message_dict (PDict d) bot = Raise e).
Proof.
  intros H. split.
  - intros ms Hms. unfold Balebot.Chat.dict, py_getitem. rewrite H.
    cbn [bind is_list py_iter].
    change (fun i : pyval => Message_dict bot i) with (Message_dict bot).
    rewrite Hms. cbn [bind py_get]. eexists. split; [reflexivity|].
    split; [reflexivity|].
    clear H. revert ms Hms. induction l as [|x l IH]; intros ms Hms.
    + injection Hms as <-. reflexivity.
    + cbn [comprehension] in Hms.
      destruct (Message_dict bot x); cbn [bind] in Hms; [|discriminate Hms].
      destruct (comprehension (Message_dict bot) l) as [ys|];
        cbn [bind] in Hms; [|discriminate Hms].
      injection Hms as <-. cbn [List.length]. f_equal. apply IH. reflexivity.
  - intros e He. unfold Balebot.Chat.dict, py_getitem. rewrite H.
    cbn [bind is_list py_iter].
    change (fun i : pyval => Message_dict bot i) with (Message_dict bot).
    rewrite He. reflexivity.
Qed.

Lemma balebot_dict_pinned_witness :
  exists chat,
    Balebot.Chat.dict (fun _ i => Ok i)
      (PDict [("pinned_message", PList [PInt 1; PInt 2])]) PNone = Ok chat /\
    Balebot.Chat.pinned_message chat = PList [PInt 1; PInt 2].
Proof.
  destruct (proj1 (balebot_dict_pinned (fun _ i => Ok i)
                     [("pinned_message", PList [PInt 1; PInt 2])] PNone
                     [PInt 1; PInt 2] eq_refl) [PInt 1; PInt 2] eq_refl)
    as (chat & Hc & Hp & _).
  exists chat. split; [exact Hc | exact Hp].
Defined.

(** ** The shortcut methods *)

Lemma decoded_ids
  (parse_time : pyval -> result pyval) (d c : dict) (i m : pyval) :
  message_payload parse_time (PDict d) = true ->
  dict_get "chat" d = Some (PDict c) ->
  dict_get "id" c = Some i ->
  dict_get "message_id" d = Some m ->
  exists self,
    Message.from_dict parse_time (PDict d) = Ok self /\
    Message.chat_id self = Ok i /\
    getattr self "message_id" = Ok m /\
    Message.id self = Ok m.
Proof.
  intros H Hc Hi Hm. destruct (from_dict_total parse_time (PDict d) H)
    as (d' & self & [= <-] & _ & Hs & Hdec).
  open_decodes Hdec.
  rewrite Hm in Hmessage_id. injection Hmessage_id as <-.
  unfold dict_get_default in Hchat. rewrite Hc in Hchat.
  apply Chat_from_dict_Ok in Hchat; [|intros ->; discriminate Hi].
  destruct Hchat as (i' & t & ph & Hi' & _ & _ & ->).
  rewrite Hi in Hi'. injection Hi' as <-.
  eexists. split; [exact Hs|]. repeat split.
Qed.

(** X23. On a decoded Message, [reply], [reply_contact], [forward], [edit]
    and [delete] address the chat of the payload and name the message by the
    "message_id" of the payload. *)
Theorem Message_shortcuts_target
  (parse_time : pyval -> result pyval) (get_bot : pyval -> result bot_client)
  (d c : dict) (i m : pyval) :
  message_payload parse_time (PDict d) = true ->
  dict_get "chat" d = Some (PDict c) ->
  dict_get "id" c = Some i ->
  dict_get "message_id" d = Some m ->
  exists self,
    Message.from_dict parse_time (PDict d) = Ok self /\
    forall bot,
      get_bot self = Ok bot ->
      (forall text components delete_after,
          Message.reply get_bot self text components delete_after =
          bot "send_message" [i; text]
            [("components", components); ("reply_to_message_id", m);
             ("delete_after", delete_after)]) /\
      (forall contact components delete_after,
          Message.reply_contact get_bot self contact components delete_after =
          bot "send_contact" [i; contact]
            [("components", components); ("reply_to_message_id", m);
             ("delete_after", delete_after)]) /\
      (forall to,
          Message.forward get_bot self to = bot "forward_message" [to; i; m] []) /\
      (forall text components,
          Message.edit get_bot self text components =
          bot "edit_message" [i; m; text] [("components", components)]) /\
      (forall delay,
          Message.delete get_bot self delay =
          bot "delete_message" [i; m] [("delay", delay)]).
Proof.
  intros H Hc Hi Hm.
  destruct (decoded_ids parse_time d c i m H Hc Hi Hm)
    as (self & Hs & Hchat & Hmid & _).
  exists self. split; [exact Hs|]. intros bot Hb.
  unfold Message.reply, Message.reply_contact, Message.forward, Message.edit,
    Message.delete.
  rewrite Hb, Hchat, Hmid. cbn [bind]. repeat split.
Qed.

Lemma Message_shortcuts_target_witness :
  exists self,
    Message.from_dict Message.parse_time_model
      (PDict [("message_id", PInt 5); ("date", PInt 10);
              ("chat", PDict [("id", PInt 77); ("type", PStr "group")])])
    = Ok self /\
    Message.delete (fun _ => Ok recording_client) self PNone
    = Ok (PTuple [PStr "delete_message"; PInt 77; PInt 5]).
Proof.
  destruct (Message_shortcuts_target Message.parse_time_model
              (fun _ => Ok recording_client)
              [("message_id", PInt 5); ("date", PInt 10);
               ("chat", PDict [("id", PInt 77); ("type", PStr "group")])]
              [("id", PInt 77); ("type", PStr "group")] (PInt 77) (PInt 5)
              eq_refl eq_refl eq_refl eq_refl) as (self & Hs & Hsh).
  exists self. split; [exact Hs|].
  destruct (Hsh recording_client eq_refl) as (_ & _ & _ & _ & Hdel).
  rewrite Hdel. reflexivity.
Defined.

(** X24. [reply_media_group] passes the id of the message where the other
    replies pass the id of the chat, and names no message to reply to: on a
    decoded Message the media group goes to the "message_id" of the
    payload. *)
Theorem reply_media_group_target
  (parse_time : pyval -> result pyval) (get_bot : pyval -> result bot_client)
  (d c : dict) (i m : pyval) :
  message_payload parse_time (PDict d) = true ->
  dict_get "chat" d = Some (PDict c) ->
  dict_get "id" c = Some i ->
  dict_get "message_id" d = Some m ->
  exists self,
    Message.from_dict parse_time (PDict d) = Ok self /\
    forall bot media components,
      get_bot self = Ok bot ->
      Message.reply_media_group get_bot self media components =
      bot "send_media_group" [m; media] [("components", components)].
Proof.
  intros H Hc Hi Hm.
  destruct (decoded_ids parse_time d c i m H Hc Hi Hm)
    as (self & Hs & _ & _ & Hid).
  exists self. split; [exact Hs|]. intros bot media components Hb.
  unfold Message.reply_media_group. rewrite Hb, Hid. reflexivity.
Qed.

Lemma reply_media_group_target_witness :
  exists self,
    Message.from_dict Message.parse_time_model
      (PDict [("message_id", PInt 5); ("date", PInt 10);
              ("chat", PDict [("id", PInt 77); ("type", PStr "group")])])
    = Ok self /\
    Message.reply_media_group (fun _ => Ok recording_client) self (PList [])
      MissingValue
    = Ok (PTuple [PStr "send_media_group"; PInt 5; PList []]).
Proof.
  destruct (reply_media_group_target Message.parse_time_model
              (fun _ => Ok recording_client)
              [("message_id", PInt 5); ("date", PInt 10);
               ("chat", PDict [("id", PInt 77); ("type", PStr "group")])]
              [("id", PInt 77); ("type", PStr "group")] (PInt 77) (PInt 5)
              eq_refl eq_refl eq_refl eq_refl) as (self & Hs & Hsh).
  exists self. split; [exact Hs|].
  rewrite (Hsh recording_client (PList []) MissingValue eq_refl). reflexivity.
Defined.

(** X25. [get_member], [ban_member], [unban_member] and [add_user] take a
    User or an id: a value that is not a User is forwarded as it is, a User is
    replaced by its [user_id], and a User without that attribute raises
    [AttributeError] before the client is asked for. *)
Theorem Chat_user_or_id
  (get_bot : pyval -> result bot_client) (kwargs : dict) (self : pyval) :
  Chat.call kwargs = Ok self ->
  exists i,
    dict_get "chat_id" kwargs = Some i /\
    (forall bot user uid,
        get_bot self = Ok bot ->
        (is_User user = false /\ uid = user) \/
        (is_User user = true /\ getattr user "user_id" = Ok uid) ->
        Chat.get_member get_bot self user =
        bot "get_chat_member" [i] [("user_id", uid)] /\
        Chat.ban_member get_bot self user =
        bot "ban_chat_member" [i; uid] [] /\
        (forall only_if_banned,
            Chat.unban_member get_bot self user only_if_banned =
            bot "unban_chat_member" [i; uid]
              [("only_if_banned", only_if_banned)]) /\
        Chat.add_user get_bot self user =
        (_ <- bot "invite_user" [i; uid] [] ;; Ok PNone)) /\
    (forall user e,
        is_User user = true -> getattr user "user_id" = Raise e ->
        e = AttributeError /\
        Chat.get_member get_bot self user = Raise AttributeError /\
        Chat.ban_member get_bot self user = Raise AttributeError /\
        Chat.add_user get_bot self user = Raise AttributeError).
Proof.
  intros H. apply Chat_call_Ok in H.
  destruct H as (i & t & Hi & _ & ->).
  exists i. split; [exact Hi|]. split.
  - intros bot user uid Hb Hu.
    assert (Hr : Chat.user_or_id user = Ok uid).
    { unfold Chat.user_or_id. destruct Hu as [[Hn ->] | [Hy Hg]].
      - rewrite Hn. reflexivity.
      - rewrite Hy. exact Hg. }
    unfold Chat.get_member, Chat.ban_member, Chat.unban_member, Chat.add_user.
    rewrite Hr. cbn [bind]. rewrite Hb. cbn [bind]. repeat split.
  - intros user e Hy Hg.
    assert (He : e = AttributeError).
    { destruct user; try discriminate Hy. cbn in Hg.
      destruct (dict_get "user_id" slots); congruence. }
    subst e. split; [reflexivity|].
    unfold Chat.get_member, Chat.ban_member, Chat.add_user, Chat.user_or_id.
    rewrite Hy, Hg. repeat split.
Qed.

Lemma Chat_user_or_id_witness :
  exists self,
    Chat.call [("chat_id", PInt 9); ("chat_type", PStr "group")] = Ok self /\
    Chat.ban_member (fun _ => Ok recording_client) self
      (PObj CUser true PNone [("user_id", PInt 4)])
    = Ok (PTuple [PStr "ban_chat_member"; PInt 9; PInt 4]) /\
    Chat.ban_member (fun _ => Ok recording_client) self (PInt 4)
    = Ok (PTuple [PStr "ban_chat_member"; PInt 9; PInt 4]).
Proof.
  eexists. split; [reflexivity|].
  destruct (Chat_user_or_id (fun _ => Ok recording_client)
              [("chat_id", PInt 9); ("chat_type", PStr "group")] _ eq_refl)
    as (i & Hi & Hf & _).
  injection Hi as <-. split.
  - destruct (Hf recording_client (PObj CUser true PNone [("user_id", PInt 4)])
                (PInt 4) eq_refl (or_intror (conj eq_refl eq_refl)))
      as (_ & Hban & _).
    rewrite Hban. reflexivity.
  - destruct (Hf recording_client (PInt 4) (PInt 4) eq_refl
                (or_introl (conj eq_refl eq_refl))) as (_ & Hban & _).
    rewrite Hban. reflexivity.
Defined.

(** X26. [leave] and [add_user] await the client and return [None] whatever
    the client returns, where [ban_member] returns the client's answer; an
    error of the client is raised by all three. *)
Theorem Chat_leave_returns_None
  (get_bot : pyval -> result bot_client) (kwargs : dict) (self : pyval)
  (bot : bot_client) :
  Chat.call kwargs = Ok self ->
  get_bot self = Ok bot ->
  exists i,
    dict_get "chat_id" kwargs = Some i /\
    (forall v, bot "leave_chat" [i] [] = Ok v ->
               Chat.leave get_bot self = Ok PNone) /\
    (forall e, bot "leave_chat" [i] [] = Raise e ->
               Chat.leave get_bot self = Raise e) /\
    (forall user v,
        is_User user = false ->
        bot "invite_user" [i; user] [] = Ok v ->
        Chat.add_user get_bot self user = Ok PNone) /\
    (forall user v,
        is_User user = false ->
        bot "ban_chat_member" [i; user] [] = Ok v ->
        Chat.ban_member get_bot self user = Ok v).
Proof.
  intros H Hb. apply Chat_call_Ok in H.
  destruct H as (i & t & Hi & _ & ->).
  exists i. split; [exact Hi|].
  unfold Chat.leave, Chat.add_user, Chat.ban_member, Chat.user_or_id.
  rewrite Hb. cbn [bind getattr BaleObject.getattr String.eqb Ascii.eqb
    Bool.eqb dict_get].
  split; [intros v Hv; rewrite Hv; reflexivity|].
  split; [intros e He; rewrite He; reflexivity|].
  split; intros user v Hu Hv; rewrite Hu; cbn [bind]; rewrite Hv;
    reflexivity.
Qed.

Lemma Chat_leave_returns_None_witness :
  exists self,
    Chat.call [("chat_id", PInt 9); ("chat_type", PStr "group")] = Ok self /\
    recording_client "leave_chat" [PInt 9] []
    = Ok (PTuple [PStr "leave_chat"; PInt 9]) /\
    Chat.leave (fun _ => Ok recording_client) self = Ok PNone.
Proof.
  eexists. split; [reflexivity|]. split; [reflexivity|].
  destruct (Chat_leave_returns_None (fun _ => Ok recording_client)
              [("chat_id", PInt 9); ("chat_type", PStr "group")] _
              recording_client eq_refl eq_refl) as (i & Hi & Hl & _).
  injection Hi as <-. apply (Hl _ eq_refl).
Defined.

(** X27. Copying a decoded Message is copying, from its chat, the message
    with its id: [Message.copy] makes the call that [Chat.copy_message] makes
    on the decoded chat of the message, given the same client. *)
Theorem Message_copy_is_Chat_copy_message
  (parse_time : pyval -> result pyval) (get_bot : pyval -> result bot_client)
  (d c : dict) (i m : pyval) :
  message_payload parse_time (PDict d) = true ->
  dict_get "chat" d = Some (PDict c) ->
  dict_get "id" c = Some i ->
  dict_get "message_id" d = Some m ->
  exists self chat,
    Message.from_dict parse_time (PDict d) = Ok self /\
    getattr self "chat" = Ok chat /\
    Chat.from_dict (PDict c) = Ok chat /\
    forall bot to reply_to_message_id delete_after,
      get_bot self = Ok bot -> get_bot chat = Ok bot ->
      Message.copy get_bot self to reply_to_message_id delete_after =
      Chat.copy_message get_bot chat to m reply_to_message_id delete_after /\
      Message.copy get_bot self to reply_to_message_id delete_after =
      bot "copy_message" [to; i; m]
        [("reply_to_message_id", reply_to_message_id);
         ("delete_after", delete_after)].
Proof.
  intros H Hc Hi Hm. destruct (from_dict_total parse_time (PDict d) H)
    as (d' & self & [= <-] & _ & Hs & Hdec).
  open_decodes Hdec.
  rewrite Hm in Hmessage_id. injection Hmessage_id as <-.
  unfold dict_get_default in Hchat. rewrite Hc in Hchat.
  pose proof Hchat as Hchat'.
  apply Chat_from_dict_Ok in Hchat; [|intros ->; discriminate Hi].
  destruct Hchat as (i' & t & ph & Hi' & _ & _ & Hch).
  rewrite Hi in Hi'. injection Hi' as <-.
  eexists. exists chat. split; [exact Hs|]. split; [reflexivity|].
  split; [exact Hchat'|].
  intros bot to r da Hb Hb'.
  unfold Message.copy, Chat.copy_message. rewrite Hb, Hb'. subst chat.
  split; reflexivity.
Qed.

Lemma Message_copy_is_Chat_copy_message_witness :
  exists self,
    Message.from_dict Message.parse_time_model
      (PDict [("message_id", PInt 5); ("date", PInt 10);
              ("chat", PDict [("id", PInt 77); ("type", PStr "group")])])
    = Ok self /\
    Message.copy (fun _ => Ok recording_client) self (PInt 1) MissingValue PNone
    = Ok (PTuple [PStr "copy_message"; PInt 1; PInt 77; PInt 5]).
Proof.
  destruct (Message_copy_is_Chat_copy_message Message.parse_time_model
              (fun _ => Ok recording_client)
              [("message_id", PInt 5); ("date", PInt 10);
               ("chat", PDict [("id", PInt 77); ("type", PStr "group")])]
              [("id", PInt 77); ("type", PStr "group")] (PInt 77) (PInt 5)
              eq_refl eq_refl eq_refl eq_refl) as (self & chat & Hs & _ & _ & Hcp).
  exists self. split; [exact Hs|].
  destruct (Hcp recording_client (PInt 1) MissingValue PNone eq_refl eq_refl)
    as [_ Heq].
  rewrite Heq. reflexivity.
Defined.
